(** * Query and recursion mixins for lists (gaphor/UML/listmixins.py)

    A shallow embedding of [Matcher], [querymixin], [issafeiterable],
    [recurseproxy] and [recursemixin], over a small model of the Python
    object store and of the expression evaluator behind [eval].

    The model in short:
    - objects with identity (instances and lists) live in a store and are
      referred to by address; an instance belongs to a plain class, whose
      body defines methods, and has a [__dict__];
    - the sequences are lists: the built-in [list] and its subclasses,
      which inherit from [querymixin], [recursemixin] or both, in any
      order, with an empty body; an object of a subclass has a [__dict__]
      of its own;
    - an attribute is looked up in the [__dict__] of the object, then on
      its type: the hooks of [recursemixin], the methods of the classes
      and of the built-in types, the data attributes of integers and
      slices.  A method read off an object is a value (a bound method);
    - a predicate is an expression made of literals, names, attribute
      reads, comparisons, [and], [or], [not] and calls; the parser is a
      parameter;
    - code runs in a state-and-exception monad: the store is threaded
      through every call, an exception carries the store it left;
    - what the model does not describe ends in [Unsupported]: reading or
      writing a special attribute [__x__], calling a method other than
      [proxy_class], comparing two bound methods, asking whether two
      equal values without an address are one object, compiling a source
      outside the fragment.  [Unsupported] is no exception of Python and
      no handler catches it: where a statement gives a result or another
      exception, the computation has stayed inside the model, and a
      statement about what is not raised is about the computations that
      stay inside it. *)

From Stdlib Require Import ZArith Lia.
From stdpp Require Import gmap strings list fin_maps.

Set Warnings "-register-all".

Open Scope string_scope.
Open Scope list_scope.

(** ** Python values and the object store *)

(** Exceptions the modelled fragment can raise. [SystemError] stands for a
    dangling reference, which no Python program can build; [Unsupported]
    for an operation the model does not describe. *)
Inductive exc :=
| AttributeError | NameError | TypeError | IndexError | ValueError
| SyntaxError | RecursionError | SystemError | Unsupported.

Global Instance exc_eq_dec : EqDecision exc.
Proof. solve_decision. Defined.

Inductive result (A : Type) :=
| Ok (a : A)
| Raise (e : exc).
Arguments Ok {A} a.
Arguments Raise {A} e.

(** Addresses of heap objects: the position in the store. *)
Definition loc := nat.

(** The built-in functions the evaluator knows how to call. *)
Inductive builtin := Blen | Bgetattr | Bhasattr | Bsetattr.

Global Instance builtin_eq_dec : EqDecision builtin.
Proof. solve_decision. Defined.

(** Immediate values.  Mutable objects (instances and lists) live in the
    store and are denoted by [VRef].  A slice carries integer-or-None
    bounds, a tuple its components.  [VMethod self name] is the bound
    method [self.name], for a method that the type of [self] defines;
    [VRecurseproxy] is the class [recurseproxy] itself. *)
Inductive value :=
| VNone
| VBool (b : bool)
| VInt (z : Z)
| VStr (s : string)
| VTuple (vs : list value)
| VSlice (start stop step : option Z)
| VRef (l : loc)
| VBuiltin (f : builtin)
| VBuiltinsDict  (* the dictionary bound to [__builtins__], opaque *)
| VMethod (self : value) (name : string)
| VRecurseproxy.

(** The mixins a list subclass may inherit from, in MRO order; the MRO
    always ends with [list] itself. *)
Inductive mixin := Querymixin | Recursemixin.

Global Instance mixin_eq_dec : EqDecision mixin.
Proof. solve_decision. Defined.

(** A class statement with bases [cls_mixins] followed by [list]. *)
Record pyclass := { cls_name : string; cls_mixins : list mixin }.

Global Instance pyclass_eq_dec : EqDecision pyclass.
Proof. solve_decision. Defined.

(** The built-in [list] type. *)
Definition list_type : pyclass := {| cls_name := "list"; cls_mixins := [] |}.

(** A plain class, as the classes [A] of the docstrings: a name and the
    names of the methods its body defines beside [__init__].  The body
    defines no other special method and no class attribute. *)
Record plainclass := { class_name : string; class_methods : list string }.

(** Heap objects: an instance of a plain class with its [__dict__], or a
    list (of the built-in type or of a subclass) with its items and, for a
    subclass, its [__dict__]. *)
Inductive obj :=
| Instance (cls : plainclass) (attrs : gmap string value)
| Seq (cls : pyclass) (items : list value) (attrs : gmap string value).

Definition heap := list obj.

(** ** The interpreter monad: a store and an exception *)

Definition M (A : Type) : Type := heap -> result A * heap.

Definition ret {A} (a : A) : M A := fun h => (Ok a, h).

Definition raise {A} (e : exc) : M A := fun h => (Raise e, h).

Definition bind {A B} (m : M A) (k : A -> M B) : M B :=
  fun h => match m h with
           | (Ok a, h') => k a h'
           | (Raise e, h') => (Raise e, h')
           end.

(** [try: m except (e1, e2, ...): handler] *)
Definition try_except {A} (m : M A) (caught : list exc) (handler : M A) : M A :=
  fun h => match m h with
           | (Raise e, h') => if bool_decide (e ∈ caught) then handler h' else (Raise e, h')
           | r => r
           end.

(** A read of the store that cannot write it. *)
Definition reading {A} (f : heap -> result A) : M A := fun h => (f h, h).

(** Allocation of a new object at the next free address. *)
Definition alloc (o : obj) : M loc := fun h => (Ok (length h), h ++ [o]).

Notation "'let*' x ':=' m 'in' k" := (bind m (fun x => k))
  (at level 10, x name, m at level 100, k at level 200).

(** ** Built-in operations of the interpreter *)

(** [bool(v)]: numbers are true when non-zero, strings, tuples and lists
    when non-empty, [None] never, every other object always. *)
Definition py_truthy (h : heap) (v : value) : bool :=
  match v with
  | VNone => false
  | VBool b => b
  | VInt z => negb (Z.eqb z 0)
  | VStr s => negb (String.eqb s "")
  | VTuple vs => match vs with [] => false | _ => true end
  | VRef l => match h !! l with
              | Some (Seq _ [] _) => false
              | _ => true
              end
  | VSlice _ _ _ | VBuiltin _ | VBuiltinsDict | VMethod _ _ | VRecurseproxy => true
  end.

(** The one-character strings a text value iterates over. *)
Fixpoint chars (s : string) : list value :=
  match s with
  | EmptyString => []
  | String c s' => VStr (String c EmptyString) :: chars s'
  end.

(** [iter(v)], run to the end: the items [v] yields, or [TypeError] when
    [v] is not iterable. *)
Definition py_iter (h : heap) (v : value) : result (list value) :=
  match v with
  | VStr s => Ok (chars s)
  | VTuple vs => Ok vs
  | VRef l => match h !! l with
              | Some (Seq _ items _) => Ok items
              | Some (Instance _ _) => Raise TypeError
              | None => Raise SystemError
              end
  | _ => Raise TypeError
  end.

(** *** Attributes *)

(** The special names [__x__]: the attributes and methods of the
    interpreter's object model. *)
Definition special (name : string) : bool :=
  String.prefix "__" name && String.prefix "__" (String.rev name).

(** Numbers: [bool] is a subtype of [int]. *)
Definition as_number (v : value) : option Z :=
  match v with
  | VBool b => Some (Z.b2z b)
  | VInt z => Some z
  | _ => None
  end.

(** A bound of a slice: an integer or [None]. *)
Definition slice_bound (o : option Z) : value :=
  match o with Some z => VInt z | None => VNone end.

(** The methods of the built-in types under names that are not special,
    as [dir] lists them in CPython 3.11 (they vary with the version of the
    interpreter). *)
Definition int_methods : list string :=
  ["as_integer_ratio"; "bit_count"; "bit_length"; "conjugate"; "from_bytes"; "to_bytes"].

Definition str_methods : list string :=
  ["capitalize"; "casefold"; "center"; "count"; "encode"; "endswith"; "expandtabs";
   "find"; "format"; "format_map"; "index"; "isalnum"; "isalpha"; "isascii";
   "isdecimal"; "isdigit"; "isidentifier"; "islower"; "isnumeric"; "isprintable";
   "isspace"; "istitle"; "isupper"; "join"; "ljust"; "lower"; "lstrip"; "maketrans";
   "partition"; "removeprefix"; "removesuffix"; "replace"; "rfind"; "rindex"; "rjust";
   "rpartition"; "rsplit"; "rstrip"; "split"; "splitlines"; "startswith"; "strip";
   "swapcase"; "title"; "translate"; "upper"; "zfill"].

Definition tuple_methods : list string := ["count"; "index"].

Definition dict_methods : list string :=
  ["clear"; "copy"; "fromkeys"; "get"; "items"; "keys"; "pop"; "popitem";
   "setdefault"; "update"; "values"].

Definition list_methods : list string :=
  ["append"; "clear"; "copy"; "count"; "extend"; "index"; "insert"; "pop"; "remove";
   "reverse"; "sort"].

(** The bound method [self.name], when [name] is among [names]. *)
Definition method_of (names : list string) (self : value) (name : string)
  : option value :=
  if bool_decide (name ∈ names) then Some (VMethod self name) else None.

(** What the type of an immediate value provides under a name that is not
    special: the data attributes of integers and slices, and the methods. *)
Definition type_attr (v : value) (name : string) : option value :=
  match v with
  | VBool _ | VInt _ =>
      let z := default 0%Z (as_number v) in
      if String.eqb name "real" || String.eqb name "numerator" then Some (VInt z)
      else if String.eqb name "imag" then Some (VInt 0)
      else if String.eqb name "denominator" then Some (VInt 1)
      else method_of int_methods v name
  | VStr _ => method_of str_methods v name
  | VTuple _ => method_of tuple_methods v name
  | VSlice start stop step =>
      if String.eqb name "start" then Some (slice_bound start)
      else if String.eqb name "stop" then Some (slice_bound stop)
      else if String.eqb name "step" then Some (slice_bound step)
      else method_of ["indices"] v name
  | VBuiltinsDict => method_of dict_methods v name
  | VRecurseproxy => method_of ["mro"] v name
  | VNone | VBuiltin _ | VMethod _ _ | VRef _ => None
  end.

(** The class attribute [_recursemixin_trigger] of [recursemixin]:
    [slice(None, None, None)]. *)
Definition recursemixin_trigger : value := VSlice None None None.

(** What a class of lists provides to its objects: the hooks of
    [recursemixin], when the class inherits from it, and the methods of
    [list].  The body of [querymixin] defines [__getitem__] only. *)
Definition class_attr (cls : pyclass) (self : value) (name : string) : option value :=
  if bool_decide (Recursemixin ∈ cls_mixins cls) && String.eqb name "_recursemixin_trigger"
  then Some recursemixin_trigger
  else if bool_decide (Recursemixin ∈ cls_mixins cls) && String.eqb name "proxy_class"
  then Some (VMethod self name)
  else method_of list_methods self name.

(** [getattr(v, name)]: the entry of the [__dict__] of the object when
    there is one, what the type provides otherwise, [AttributeError] when
    neither does. *)
Definition py_getattr (h : heap) (v : value) (name : string) : result value :=
  let found (own of_type : option value) : result value :=
    match own, of_type with
    | Some a, _ => Ok a
    | None, Some a => Ok a
    | None, None => Raise AttributeError
    end in
  if special name then Raise Unsupported else
  match v with
  | VRef l => match h !! l with
              | Some (Instance cls attrs) =>
                  found (attrs !! name) (method_of (class_methods cls) v name)
              | Some (Seq cls _ attrs) =>
                  found (attrs !! name) (class_attr cls v name)
              | None => Raise SystemError
              end
  | _ => found None (type_attr v name)
  end.

(** [setattr(v, name, a)]: instances of classes have a [__dict__], the
    built-in types have none. *)
Definition py_setattr (v : value) (name : string) (a : value) : M value :=
  fun h =>
    if special name then (Raise Unsupported, h) else
    match v with
    | VRef l => match h !! l with
                | Some (Instance cls attrs) =>
                    (Ok VNone, <[l := Instance cls (<[name := a]> attrs)]> h)
                | Some (Seq cls items attrs) =>
                    if decide (cls = list_type) then (Raise AttributeError, h)
                    else (Ok VNone, <[l := Seq cls items (<[name := a]> attrs)]> h)
                | None => (Raise SystemError, h)
                end
    | VRecurseproxy => (Raise Unsupported, h)
    | _ => (Raise AttributeError, h)
    end.

(** [isinstance(v, str)] *)
Definition isinstance_str (v : value) : bool :=
  match v with VStr _ => true | _ => false end.

(** [type(v)] for a list object. *)
Definition py_type (h : heap) (l : loc) : result pyclass :=
  match h !! l with
  | Some (Seq cls _ _) => Ok cls
  | Some (Instance _ _) => Raise TypeError
  | None => Raise SystemError
  end.

(** ** Comparisons *)

Inductive cmpop := OpEq | OpNotEq | OpLt | OpLtE | OpGt | OpGtE | OpIs | OpIsNot.

(** The outcome of an ordering operator on a three-way comparison. *)
Definition holds (op : cmpop) (c : comparison) : bool :=
  match op, c with
  | OpEq, Eq | OpLtE, Eq | OpGtE, Eq => true
  | OpNotEq, Lt | OpLt, Lt | OpLtE, Lt => true
  | OpNotEq, Gt | OpGt, Gt | OpGtE, Gt => true
  | _, _ => false
  end.

(** Whether [a] and [b] are one object, for the objects that compare by
    identity: those of the store are one when their addresses are, [None],
    the truth values, each built-in function, the dictionary of the
    built-in names and the class [recurseproxy] are one object each, and
    values of different types are never one. *)
Definition py_is (a b : value) : bool :=
  match a, b with
  | VNone, VNone => true
  | VBool x, VBool y => Bool.eqb x y
  | VInt x, VInt y => Z.eqb x y
  | VStr x, VStr y => String.eqb x y
  | VRef x, VRef y => Nat.eqb x y
  | VBuiltin f, VBuiltin g => bool_decide (f = g)
  | VBuiltinsDict, VBuiltinsDict => true
  | VRecurseproxy, VRecurseproxy => true
  | _, _ => false
  end.

(** [a is b].  Two integers or two strings that differ are two objects;
    whether two that are equal are one object, and whether two tuples, two
    slices or two bound methods are, is left to the interpreter. *)
Definition identity (a b : value) : result bool :=
  match a, b with
  | VInt _, VInt _ | VStr _, VStr _ =>
      if py_is a b then Raise Unsupported else Ok false
  | VTuple _, VTuple _ | VSlice _ _ _, VSlice _ _ _ | VMethod _ _, VMethod _ _ =>
      Raise Unsupported
  | _, _ => Ok (py_is a b)
  end.

(** A slice compares as the tuple of its three fields. *)
Definition slice_fields (start stop step : option Z) : list value :=
  [slice_bound start; slice_bound stop; slice_bound step].

(** The interpreter's bound on nested calls. *)
Definition recursion_limit : nat := 1000.

(** Rich comparison [a op b] for the six ordering operators.  Sequences
    compare lexicographically, element by element, and a list may contain
    itself: the depth of the comparison is bounded by [n], beyond which the
    interpreter raises [RecursionError].  Objects without an ordering
    are equal when they are identical. *)
Fixpoint richcmp (n : nat) (h : heap) (op : cmpop) (a b : value) {struct n}
  : result bool :=
  match n with
  | O => Raise RecursionError
  | S n' =>
      let fix lexi (xs ys : list value) {struct xs} : result bool :=
        match xs, ys with
        | x :: xs', y :: ys' =>
            match richcmp n' h OpEq x y with
            | Ok true => lexi xs' ys'
            | Ok false =>
                match op with
                | OpEq => Ok false
                | OpNotEq => Ok true
                | _ => richcmp n' h op x y
                end
            | Raise e => Raise e
            end
        | _, _ => Ok (holds op (Nat.compare (length xs) (length ys)))
        end in
      let sequences (xs ys : list value) : result bool :=
        match op with
        | OpEq => if Nat.eqb (length xs) (length ys) then lexi xs ys else Ok false
        | OpNotEq => if Nat.eqb (length xs) (length ys) then lexi xs ys else Ok true
        | _ => lexi xs ys
        end in
      let unordered (same : bool) : result bool :=
        match op with
        | OpEq => Ok same
        | OpNotEq => Ok (negb same)
        | _ => Raise TypeError
        end in
      match as_number a, as_number b with
      | Some x, Some y => Ok (holds op (Z.compare x y))
      | _, _ =>
          match a, b with
          | VStr x, VStr y => Ok (holds op (String.compare x y))
          | VTuple xs, VTuple ys => sequences xs ys
          | VRef la, VRef lb =>
              match h !! la, h !! lb with
              | Some (Seq _ xs _), Some (Seq _ ys _) =>
                  if Nat.eqb la lb
                  then Ok (holds op Eq)
                  else sequences xs ys
              | Some _, Some _ => unordered (Nat.eqb la lb)
              | _, _ => Raise SystemError
              end
          | VSlice s1 e1 t1, VSlice s2 e2 t2 =>
              sequences (slice_fields s1 e1 t1) (slice_fields s2 e2 t2)
          | VMethod _ _, VMethod _ _ => Raise Unsupported
          | _, _ => unordered (py_is a b)
          end
      end
  end.

(** [a op b] as the evaluator computes it. *)
Definition py_compare (h : heap) (op : cmpop) (a b : value) : result value :=
  match op with
  | OpIs => match identity a b with
            | Ok r => Ok (VBool r)
            | Raise e => Raise e
            end
  | OpIsNot => match identity a b with
               | Ok r => Ok (VBool (negb r))
               | Raise e => Raise e
               end
  | _ => match richcmp recursion_limit h op a b with
         | Ok r => Ok (VBool r)
         | Raise e => Raise e
         end
  end.

(** ** Expressions and their evaluation

    The fragment of the expression grammar that predicates are written in:
    literals, names, dotted attribute access, comparisons, the boolean
    connectives, and calls. *)

Inductive constant := CNone | CBool (b : bool) | CInt (z : Z) | CStr (s : string).

Inductive boolop := And | Or.

Inductive expression :=
| Constant (c : constant)
| Name (id : string)
| Attribute (e : expression) (attr : string)
| Compare (l : expression) (op : cmpop) (r : expression)
| BoolOp (op : boolop) (l r : expression)
| Not (operand : expression)
| Call (func : expression) (args : list expression).

Definition constant_value (c : constant) : value :=
  match c with
  | CNone => VNone
  | CBool b => VBool b
  | CInt z => VInt z
  | CStr s => VStr s
  end.

(** The three name spaces a name is looked up in, in this order. *)
Record namespaces := {
  ns_locals : gmap string value;
  ns_globals : gmap string value;
  ns_builtins : gmap string value
}.

Definition lookup_name (ns : namespaces) (id : string) : result value :=
  match ns_locals ns !! id with
  | Some v => Ok v
  | None =>
      match ns_globals ns !! id with
      | Some v => Ok v
      | None =>
          match ns_builtins ns !! id with
          | Some v => Ok v
          | None => Raise NameError
          end
      end
  end.

(** [len(v)] *)
Definition py_len (h : heap) (v : value) : result value :=
  match v with
  | VStr s => Ok (VInt (Z.of_nat (String.length s)))
  | VTuple vs => Ok (VInt (Z.of_nat (length vs)))
  | VRef l => match h !! l with
              | Some (Seq _ items _) => Ok (VInt (Z.of_nat (length items)))
              | Some (Instance _ _) => Raise TypeError
              | None => Raise SystemError
              end
  | _ => Raise TypeError
  end.

(** [recursemixin.proxy_class(self)]: [return recurseproxy]. *)
Definition proxy_class (self : value) : M value := ret VRecurseproxy.

(** Whether [v] is an object of a class that inherits from
    [recursemixin]. *)
Definition is_recursive (h : heap) (v : value) : bool :=
  match v with
  | VRef l => match h !! l with
              | Some (Seq cls _ _) => bool_decide (Recursemixin ∈ cls_mixins cls)
              | _ => false
              end
  | _ => false
  end.

(** A call of [f] on positional arguments.  The callables are the built-in
    functions, the bound methods, of which [proxy_class] is the one the
    model runs, and the class [recurseproxy], whose objects are no values
    of the evaluator; anything else is not callable. *)
Definition py_call (f : value) (args : list value) : M value :=
  match f, args with
  | VBuiltin Blen, [v] => reading (fun h => py_len h v)
  | VBuiltin Bgetattr, [v; VStr name] => reading (fun h => py_getattr h v name)
  | VBuiltin Bgetattr, [v; VStr name; dflt] =>
      try_except (reading (fun h => py_getattr h v name)) [AttributeError] (ret dflt)
  | VBuiltin Bhasattr, [v; VStr name] =>
      try_except (let* _ := reading (fun h => py_getattr h v name) in ret (VBool true))
                 [AttributeError] (ret (VBool false))
  | VBuiltin Bsetattr, [v; VStr name; a] => py_setattr v name a
  | VMethod self name, _ =>
      let* hook := reading (fun h => Ok (is_recursive h self
                                          && String.eqb name "proxy_class")) in
      if hook : bool
      then match args with
           | [] => proxy_class self
           | _ => raise TypeError
           end
      else raise Unsupported
  | VRecurseproxy, [_] => raise Unsupported
  | _, _ => raise TypeError
  end.

Fixpoint eval_expr (ns : namespaces) (e : expression) {struct e} : M value :=
  match e with
  | Constant c => ret (constant_value c)
  | Name id => reading (fun _ => lookup_name ns id)
  | Attribute e' attr =>
      let* v := eval_expr ns e' in
      reading (fun h => py_getattr h v attr)
  | Compare l op r =>
      let* a := eval_expr ns l in
      let* b := eval_expr ns r in
      reading (fun h => py_compare h op a b)
  | BoolOp And l r =>
      let* a := eval_expr ns l in
      let* t := reading (fun h => Ok (py_truthy h a)) in
      if t : bool then eval_expr ns r else ret a
  | BoolOp Or l r =>
      let* a := eval_expr ns l in
      let* t := reading (fun h => Ok (py_truthy h a)) in
      if t : bool then ret a else eval_expr ns r
  | Not operand =>
      let* a := eval_expr ns operand in
      reading (fun h => Ok (VBool (negb (py_truthy h a))))
  | Call func args =>
      let* f := eval_expr ns func in
      let* vs := (fix eval_args (es : list expression) : M (list value) :=
                    match es with
                    | [] => ret []
                    | e' :: es' =>
                        let* v := eval_expr ns e' in
                        let* vs := eval_args es' in
                        ret (v :: vs)
                    end) args in
      py_call f vs
  end.

(** The frame a piece of code runs in: the globals of its module, the
    locals of the running function and the built-in name space. *)
Record frame := {
  f_globals : gmap string value;
  f_locals : gmap string value;
  f_builtins : gmap string value
}.

(** The built-in [eval(code, globals, locals)].  Omitted dictionaries
    default to those of the calling frame (and [locals] to a given
    [globals]).  A [globals] without the key [__builtins__] receives it,
    so the built-in name space of the calling frame stays in reach of the
    evaluated code whatever dictionaries are passed. *)
Definition py_eval (caller : frame) (code : expression)
    (globals locals : option (gmap string value)) : M value :=
  let g := default (f_globals caller) globals in
  let l := match locals with
           | Some l => l
           | None => default (f_locals caller) globals
           end in
  let g' := match g !! "__builtins__" with
            | Some _ => g
            | None => <["__builtins__" := VBuiltinsDict]> g
            end in
  eval_expr {| ns_locals := l; ns_globals := g'; ns_builtins := f_builtins caller |} code.

(** ** Indexing a list: [list.__getitem__] *)

(** The proxy object of [recursemixin]: it holds a reference to the
    sequence it was built over (the private attribute [__sequence]). *)
Record recurseproxy := { sequence : loc }.

(** What an indexing operation returns: a value, or a proxy.  Proxies are
    transient: they are never stored in an attribute or in a list. *)
Inductive pyobj :=
| PVal (v : value)
| PProxy (p : recurseproxy).

Section Slices.
Local Open Scope Z_scope.

(** The positions a slice selects in a sequence of length [len]. *)
Definition slice_indices (len : Z) (start stop step : option Z) : result (list Z) :=
  let step := default 1 step in
  if step =? 0 then Raise ValueError else
  let clamp (i : Z) : Z :=
    if i <? 0 then
      (if i + len <? 0 then (if step <? 0 then -1 else 0) else i + len)
    else if len <=? i then (if step <? 0 then len - 1 else len)
    else i in
  let start := match start with
               | Some i => clamp i
               | None => if step <? 0 then len - 1 else 0
               end in
  let stop := match stop with
              | Some i => clamp i
              | None => if step <? 0 then -1 else len
              end in
  let count :=
    if step <? 0
    then (if stop <? start then (start - stop - 1) / (- step) + 1 else 0)
    else (if start <? stop then (stop - start - 1) / step + 1 else 0) in
  Ok (map (fun k => start + Z.of_nat k * step) (seq 0 (Z.to_nat count))).

(** An integer index, counted from the end when negative. *)
Definition index_item (items : list value) (i : Z) : result value :=
  let len := Z.of_nat (length items) in
  let j := if i <? 0 then i + len else i in
  if (j <? 0) || (len <=? j) then Raise IndexError
  else match items !! Z.to_nat j with
       | Some v => Ok v
       | None => Raise IndexError
       end.

End Slices.

(** [list.__getitem__(self, key)]: an item for an integer, a new list of
    the built-in type for a slice, [TypeError] for any other key. *)
Definition list_getitem (self : loc) (key : value) : M pyobj :=
  let* items := reading (fun h => py_iter h (VRef self)) in
  match key with
  | VInt i => let* v := reading (fun _ => index_item items i) in ret (PVal v)
  | VBool b => let* v := reading (fun _ => index_item items (Z.b2z b)) in ret (PVal v)
  | VSlice start stop step =>
      let* positions :=
        reading (fun _ => slice_indices (Z.of_nat (length items)) start stop step) in
      let* l := alloc (Seq list_type
                         (omap (fun i => items !! Z.to_nat i) positions) ∅) in
      ret (PVal (VRef l))
  | _ => raise TypeError
  end.

(** ** The module [listmixins] *)

(** What the built-in [compile] makes of a source text: code of the
    fragment, a syntax error, or code that the fragment does not have. *)
Inductive compiled :=
| Code (code : expression)
| Malformed
| Outside.

Section ListMixins.

(** The parser behind the built-in [compile]. *)
Variable parse : string -> compiled.

(** The frame the code of the module runs in. *)
Variable caller : frame.

(** [compile(source, "<matcher>", "eval")] *)
Definition py_compile (source : value) : M expression :=
  match source with
  | VStr s => match parse s with
              | Code code => ret code
              | Malformed => raise SyntaxError
              | Outside => raise Unsupported
              end
  | _ => raise TypeError
  end.

(** *** class Matcher *)

Record Matcher := { expr : expression }.

Definition Matcher_init (source : value) : M Matcher :=
  let* code := py_compile source in
  ret {| expr := code |}.

Definition Matcher_call (self : Matcher) (element : value) : M value :=
  try_except
    (py_eval caller (expr self) (Some ∅) (Some {[ "it" := element ]}))
    [AttributeError; NameError]
    (ret (VBool false)).

(** [list(filter(function, items))] *)
Fixpoint py_filter (function : value -> M value) (items : list value)
  : M (list value) :=
  match items with
  | [] => ret []
  | x :: rest =>
      let* r := function x in
      let* keep := reading (fun h => Ok (py_truthy h r)) in
      let* matched := py_filter function rest in
      ret (if keep : bool then x :: matched else matched)
  end.

(** *** class querymixin *)

(** [querymixin.__getitem__(self, key)].  [super_getitem] is
    [super().__getitem__], [type_self] is [type(self)] and
    [bound_getitem o args] calls [o.__getitem__] on the positional
    arguments [args].  The local [trick] is the body of the [except]
    clause after the key has been split; [matched], a temporary, is not
    given an address of its own. *)
Definition querymixin_getitem
    (super_getitem : loc -> value -> M pyobj)
    (type_self : pyclass)
    (bound_getitem : loc -> list value -> M pyobj)
    (self : loc) (key : value) : M pyobj :=
  try_except (super_getitem self key) [TypeError]
    (let trick (key : value) (remainder : option (list value)) : M pyobj :=
       let* matcher := Matcher_init key in
       let* items := reading (fun h => py_iter h (VRef self)) in
       let* matched := py_filter (Matcher_call matcher) items in
       match remainder with
       | Some ((_ :: _) as remainder) =>
           let* o := alloc (Seq type_self matched ∅) in
           bound_getitem o remainder
       | _ =>
           let* o := alloc (Seq type_self matched ∅) in
           ret (PVal (VRef o))
       end in
     match key with
     | VTuple [] => raise IndexError
     | VTuple (k :: rest) => trick k (Some rest)
     | _ => trick key None
     end).

(** *** issafeiterable *)

Definition issafeiterable (obj : value) : M bool :=
  try_except
    (let* _ := reading (fun h => py_iter h obj) in
     ret (negb (isinstance_str obj)))
    [TypeError]
    (ret false).

(** *** class recurseproxy *)

Definition recurseproxy_init (sequence : loc) : recurseproxy :=
  {| sequence := sequence |}.

(** [recurseproxy.__getitem__]; [getitem] is the indexing of the backing
    sequence, [self.__sequence.__getitem__]. *)
Definition recurseproxy_getitem
    (getitem : loc -> value -> M pyobj)
    (self : recurseproxy) (key : value) : M pyobj :=
  getitem (sequence self) key.

Definition recurseproxy_iter (self : recurseproxy) : M (list value) :=
  reading (fun h => py_iter h (VRef (sequence self))).

(** The generator [mygetattr] of [recurseproxy.__getattr__], run to the
    end over the items of the sequence. *)
Fixpoint mygetattr (key : string) (items : list value) : M (list value) :=
  match items with
  | [] => ret []
  | e :: rest =>
      let* yielded :=
        try_except
          (let* obj := reading (fun h => py_getattr h e key) in
           let* safe := issafeiterable obj in
           if safe : bool
           then reading (fun h => py_iter h obj)
           else ret [obj])
          [AttributeError]
          (ret []) in
      let* others := mygetattr key rest in
      ret (yielded ++ others)
  end.

Definition recurseproxy_getattr (self : recurseproxy) (key : string)
  : M recurseproxy :=
  let* type_sequence := reading (fun h => py_type h (sequence self)) in
  let* items := reading (fun h => py_iter h (VRef (sequence self))) in
  let* projected := mygetattr key items in
  let* s := alloc (Seq type_sequence projected ∅) in
  ret (recurseproxy_init s).

(** *** class recursemixin

    The class attribute [_recursemixin_trigger] is [recursemixin_trigger]
    and the method [proxy_class] is [proxy_class], above: both are found
    by [py_getattr] on an object of a class that inherits from
    [recursemixin], unless the [__dict__] of the object binds the name. *)

(** [proxy_type(sequence)], for what [self.proxy_class()] returned: an
    object of [recurseproxy], or the call of whatever else it is. *)
Definition instantiate (proxy_type : value) (sequence : loc) : M pyobj :=
  match proxy_type with
  | VRecurseproxy => ret (PProxy (recurseproxy_init sequence))
  | _ => let* r := py_call proxy_type [VRef sequence] in ret (PVal r)
  end.

Definition recursemixin_getitem
    (super_getitem : loc -> value -> M pyobj)
    (self : loc) (key : value) : M pyobj :=
  let* trigger := reading (fun h => py_getattr h (VRef self) "_recursemixin_trigger") in
  let* same := reading (fun h => py_compare h OpEq key trigger) in
  let* t := reading (fun h => Ok (py_truthy h same)) in
  if t : bool
  then
    let* method := reading (fun h => py_getattr h (VRef self) "proxy_class") in
    let* proxy_type := py_call method [] in
    instantiate proxy_type self
  else super_getitem self key.

(** *** Method resolution

    [getitem cls self key] is [self[key]] for an instance [self] of [cls]:
    the mixins are tried in the order of the MRO, each reaching the next
    through [super()], down to [list.__getitem__]. *)

Definition call_method (method : loc -> value -> M pyobj)
    (self : loc) (args : list value) : M pyobj :=
  match args with
  | [key] => method self key
  | _ => raise TypeError
  end.

Fixpoint getitem (cls : pyclass) (key : value) {struct key} : loc -> M pyobj :=
  (fix dispatch (mro : list mixin) : loc -> M pyobj :=
     match mro with
     | [] => fun self => list_getitem self key
     | Querymixin :: rest =>
         fun self =>
         querymixin_getitem (fun o _ => dispatch rest o) cls
           (call_method (fun o k => getitem cls k o)) self key
     | Recursemixin :: rest =>
         fun self => recursemixin_getitem (fun o _ => dispatch rest o) self key
     end) (cls_mixins cls).

(** The walk of [getitem] along the MRO, on its own: [super()] from the
    mixins [mro] onwards, for the key of the call.  [getitem cls key] is
    [dispatch cls key (cls_mixins cls)], see [getitem_dispatch]. *)
Fixpoint dispatch (cls : pyclass) (key : value) (mro : list mixin) : loc -> M pyobj :=
  match mro with
  | [] => fun self => list_getitem self key
  | Querymixin :: rest =>
      fun self =>
      querymixin_getitem (fun o _ => dispatch cls key rest o) cls
        (call_method (fun o k => getitem cls k o)) self key
  | Recursemixin :: rest =>
      fun self => recursemixin_getitem (fun o _ => dispatch cls key rest o) self key
  end.

End ListMixins.

(** [self[key]] for an object of the store: the method is found on
    [type(self)]. *)
Definition subscript (parse : string -> compiled) (caller : frame)
    (self : loc) (key : value) : M pyobj :=
  let* cls := reading (fun h => py_type h self) in
  getitem parse caller cls key self.

(** Iteration to the end over what an indexing operation returned. *)
Definition iterate (o : pyobj) : M (list value) :=
  match o with
  | PVal v => reading (fun h => py_iter h v)
  | PProxy p => recurseproxy_iter p
  end.

(** [list(o)] *)
Definition py_list (o : pyobj) : M loc :=
  let* items := iterate o in
  alloc (Seq list_type items ∅).

(** [r[key]] for what an indexing operation returned: a proxy delegates
    to its sequence, tuples and strings index as lists do. *)
Definition index_result (parse : string -> compiled) (caller : frame)
    (r : pyobj) (key : value) : M pyobj :=
  match r with
  | PProxy p => recurseproxy_getitem (subscript parse caller) p key
  | PVal (VRef o) => subscript parse caller o key
  | PVal (VTuple vs) =>
      match key with
      | VInt i => let* v := reading (fun _ => index_item vs i) in ret (PVal v)
      | VBool b => let* v := reading (fun _ => index_item vs (Z.b2z b)) in ret (PVal v)
      | VSlice start stop step =>
          let* positions :=
            reading (fun _ => slice_indices (Z.of_nat (length vs)) start stop step) in
          ret (PVal (VTuple (omap (fun i => vs !! Z.to_nat i) positions)))
      | _ => raise TypeError
      end
  | PVal (VStr s) =>
      let text (cs : list value) : string :=
        fold_right (fun c acc => match c with VStr x => x ++ acc | _ => acc end)%string
                   EmptyString cs in
      match key with
      | VInt i => let* v := reading (fun _ => index_item (chars s) i) in ret (PVal v)
      | VBool b =>
          let* v := reading (fun _ => index_item (chars s) (Z.b2z b)) in ret (PVal v)
      | VSlice start stop step =>
          let* positions :=
            reading (fun _ => slice_indices (Z.of_nat (String.length s)) start stop step) in
          ret (PVal (VStr (text (omap (fun i => chars s !! Z.to_nat i) positions))))
      | _ => raise TypeError
      end
  | PVal _ => raise TypeError
  end.

(** ** Notions the statements are written in *)


(** A dotted path [root.a1.a2...an]. *)
Definition attribute_path (root : expression) (names : list string) : expression :=
  fold_left Attribute names root.

(** Following a dotted path from an object, one attribute read at a time. *)
Fixpoint follow (h : heap) (v : value) (names : list string) : result value :=
  match names with
  | [] => Ok v
  | name :: rest =>
      match py_getattr h v name with
      | Ok a => follow h a rest
      | Raise e => Raise e
      end
  end.

(** The name spaces a predicate is evaluated in. *)
Definition matcher_namespaces (caller : frame) (element : value) : namespaces :=
  {| ns_locals := {[ "it" := element ]};
     ns_globals := {[ "__builtins__" := VBuiltinsDict ]};
     ns_builtins := f_builtins caller |}.

(** The truth values of what [function] returns on the items, called on
    one item after the other. *)
Fixpoint verdicts (function : value -> M value) (items : list value) : M (list bool) :=
  match items with
  | [] => ret []
  | x :: rest =>
      let* r := function x in
      let* keep := reading (fun h => Ok (py_truthy h r)) in
      let* keeps := verdicts function rest in
      ret (keep :: keeps)
  end.

(** The items marked [true], in their order. *)
Fixpoint select (items : list value) (keeps : list bool) : list value :=
  match items, keeps with
  | x :: items', keep :: keeps' =>
      if keep then x :: select items' keeps' else select items' keeps'
  | _, _ => []
  end.

(** Whether the matcher returns a true value on an element, in a store. *)
Definition matches (caller : frame) (m : Matcher) (h : heap) (x : value) : bool :=
  match fst (Matcher_call caller m x h) with
  | Ok v => py_truthy h v
  | Raise _ => false
  end.





(** The whole-range marker, [slice(None, None, None)], and no other key. *)
Definition is_trigger (key : value) : bool :=
  match key with
  | VSlice None None None => true
  | _ => false
  end.

(** The marker that the [__dict__] of a sequence puts in the place of the
    one of [recursemixin], when it binds [_recursemixin_trigger] and the
    class of the sequence inherits from [recursemixin]. *)
Definition own_marker (cls : pyclass) (attrs : gmap string value) : option value :=
  if bool_decide (Recursemixin ∈ cls_mixins cls)
  then attrs !! "_recursemixin_trigger"
  else None.

(** The hooks of a sequence are those of the class [recursemixin], as
    far as the classes [mro] are concerned: its [__dict__] binds neither
    [_recursemixin_trigger] nor [proxy_class]. *)
Definition default_hooks (h : heap) (self : loc) (mro : list mixin) : Prop :=
  Recursemixin ∈ mro ->
  exists cls items attrs,
    h !! self = Some (Seq cls items attrs)
    /\ Recursemixin ∈ cls_mixins cls
    /\ attrs !! "_recursemixin_trigger" = None
    /\ attrs !! "proxy_class" = None.

(** The marker a sequence compares its keys with is the one of the class
    [recursemixin], as far as the classes [mro] are concerned. *)
Definition default_marker (h : heap) (self : loc) (mro : list mixin) : Prop :=
  Recursemixin ∈ mro ->
  py_getattr h (VRef self) "_recursemixin_trigger" = Ok recursemixin_trigger.

(** The keys [list.__getitem__] accepts. *)
Definition is_index (key : value) : bool :=
  match key with
  | VInt _ | VBool _ | VSlice _ _ _ => true
  | _ => false
  end.

(** ** The objects of the docstrings *)

(** The built-in name space of a fresh interpreter, as far as modelled. *)
Definition builtins_module : gmap string value :=
  {[ "len" := VBuiltin Blen; "getattr" := VBuiltin Bgetattr;
     "hasattr" := VBuiltin Bhasattr; "setattr" := VBuiltin Bsetattr ]}.

(** The frame of the module [listmixins] in a fresh interpreter. *)
Definition module_frame : frame :=
  {| f_globals := {[ "__name__" := VStr "gaphor.UML.listmixins" ]};
     f_locals := ∅;
     f_builtins := builtins_module |}.

(** [it.attr == 's'] *)
Definition it_attr_eq (attr s : string) : expression :=
  Compare (Attribute (Name "it") attr) OpEq (Constant (CStr s)).

(** [it.name < 1] *)
Definition it_name_lt_1 : expression :=
  Compare (Attribute (Name "it") "name") OpLt (Constant (CInt 1)).

(** The parser on the sources of the examples: four predicates, and two
    texts that are no expressions, the empty one and a comparison without
    its right operand.  Any other source is left to the parameter. *)
Definition sample_parse (source : string) : compiled :=
  if String.eqb source "it.name=='one'" then Code (it_attr_eq "name" "one")
  else if String.eqb source "it.name=='two'" then Code (it_attr_eq "name" "two")
  else if String.eqb source "it.name=='nope'" then Code (it_attr_eq "name" "nope")
  else if String.eqb source "it.name < 1" then Code it_name_lt_1
  else if String.eqb source EmptyString then Malformed
  else if String.eqb source "it.name==" then Malformed
  else Outside.

Definition MList : pyclass := {| cls_name := "MList"; cls_mixins := [Querymixin] |}.
Definition rlist : pyclass := {| cls_name := "rlist"; cls_mixins := [Recursemixin] |}.

(** The class [A] of the docstrings of [Matcher] and [querymixin], whose
    body defines [__init__] only. *)
Definition class_A : plainclass := {| class_name := "A"; class_methods := [] |}.

(** The class [A] of the docstring of [recursemixin], with its method
    [dump]. *)
Definition class_A_dump : plainclass :=
  {| class_name := "A"; class_methods := ["dump"] |}.

(** [A(name)] *)
Definition A (name : string) : obj := Instance class_A {[ "name" := VStr name ]}.

(** [m = MList([A('one'), A('two'), A('three')])], at address 3. *)
Definition m_heap : heap :=
  [A "one"; A "two"; A "three"; Seq MList [VRef 0; VRef 1; VRef 2] ∅].


(** [A(name, *children)] with [self.children = rlist(children)]: the
    list of children is allocated first, then the instance. *)
Definition new_A (name : string) (children : list loc) : M loc :=
  let* c := alloc (Seq rlist (map VRef children) ∅) in
  alloc (Instance class_A_dump {[ "name" := VStr name; "children" := VRef c ]}).

(** [a = A('root', A('a', A('b'), A('c'), A('d')), A('e', A('one'), A('two')))] *)
Definition build_a : M loc :=
  let* b := new_A "b" [] in
  let* c := new_A "c" [] in
  let* d := new_A "d" [] in
  let* a := new_A "a" [b; c; d] in
  let* one := new_A "one" [] in
  let* two := new_A "two" [] in
  let* e := new_A "e" [one; two] in
  new_A "root" [a; e].

Definition a_heap : heap := snd (build_a []).

(** The address of [a.children] in [a_heap]. *)
Definition a_children : loc := 14%nat.



(** [s = rlist([7])] after [s._recursemixin_trigger = 0], and
    [t = rlist([7])] after [t.proxy_class = 3]. *)
Definition rebound_heap : heap :=
  [Seq rlist [VInt 7] {[ "_recursemixin_trigger" := VInt 0 ]}].

Definition uncallable_heap : heap :=
  [Seq rlist [VInt 7] {[ "proxy_class" := VInt 3 ]}].



(** ** Notions of the further properties *)

(** A computation that raises neither [AttributeError] nor [NameError],
    from a given store and from every store. *)
Definition quiet_at {A} (m : M A) (h : heap) : Prop :=
  forall e, fst (m h) = Raise e -> e <> AttributeError /\ e <> NameError.

Definition quiet {A} (m : M A) : Prop := forall h, quiet_at m h.






(** The comparison of two sequences inside [richcmp], given the comparison
    of their elements. *)
Definition lexicographic (compare : cmpop -> value -> value -> result bool)
    (op : cmpop) : list value -> list value -> result bool :=
  fix lexi (xs ys : list value) {struct xs} : result bool :=
    match xs, ys with
    | x :: xs', y :: ys' =>
        match compare OpEq x y with
        | Ok true => lexi xs' ys'
        | Ok false =>
            match op with
            | OpEq => Ok false
            | OpNotEq => Ok true
            | _ => compare op x y
            end
        | Raise e => Raise e
        end
    | _, _ => Ok (holds op (Nat.compare (length xs) (length ys)))
    end.


(** The remainder of a tuple key. *)
Definition remainder_of (key : value) : list value :=
  match key with
  | VTuple (_ :: rest) => rest
  | _ => []
  end.



(** * Properties *)

(** ** The evaluator *)

Lemma bind_ok {A B} (m : M A) (k : A -> M B) h a h' :
  m h = (Ok a, h') -> bind m k h = k a h'.
Proof. intros E. unfold bind. now rewrite E. Qed.

Lemma bind_raise {A B} (m : M A) (k : A -> M B) h e h' :
  m h = (Raise e, h') -> bind m k h = (Raise e, h').
Proof. intros E. unfold bind. now rewrite E. Qed.

Lemma bind_reading {A B} (f : heap -> result A) (k : A -> M B) h :
  bind (reading f) k h
  = match f h with
    | Ok a => k a h
    | Raise e => (Raise e, h)
    end.
Proof. reflexivity. Qed.

Lemma bind_ret {A B} (a : A) (k : A -> M B) h : bind (ret a) k h = k a h.
Proof. reflexivity. Qed.

Lemma bind_assoc {A B C} (m : M A) (k : A -> M B) (k' : B -> M C) h :
  bind (bind m k) k' h = bind m (fun a => bind (k a) k') h.
Proof. unfold bind. destruct (m h) as [[a | x] h1]; reflexivity. Qed.

Lemma bind_alloc {B} (o : obj) (k : loc -> M B) h :
  bind (alloc o) k h = k (length h) (h ++ [o]).
Proof. reflexivity. Qed.

(** The object just allocated is found at its address. *)
Lemma lookup_alloc (h : heap) (o : obj) : (h ++ [o]) !! length h = Some o.
Proof.
  unfold heap, loc in *. rewrite lookup_app_r by lia. now rewrite Nat.sub_diag.
Qed.


(** Evaluating a dotted path reads its attributes one after the other. *)
Lemma eval_attribute_path ns names : forall root h,
  eval_expr ns (attribute_path root names) h
  = match eval_expr ns root h with
    | (Ok v, h') => (follow h' v names, h')
    | (Raise x, h') => (Raise x, h')
    end.
Proof.
  unfold attribute_path.
  induction names as [| name names IH]; intros root h; simpl.
  - destruct (eval_expr ns root h) as [[v | x] h']; reflexivity.
  - rewrite IH. simpl. unfold bind.
    destruct (eval_expr ns root h) as [[v | x] h']; [| reflexivity].
    unfold reading. destruct (py_getattr h' v name); reflexivity.
Qed.

Lemma Matcher_call_unfold caller m element h :
  Matcher_call caller m element h
  = match eval_expr (matcher_namespaces caller element) (expr m) h with
    | (Raise e, h') =>
        if bool_decide (e ∈ [AttributeError; NameError])
        then (Ok (VBool false), h') else (Raise e, h')
    | r => r
    end.
Proof. reflexivity. Qed.

(** An attribute missing somewhere along a dotted path makes the evaluation
    of the path raise [AttributeError]. *)
Lemma absent_attribute_raises caller element names h :
  follow h element names = Raise AttributeError ->
  eval_expr (matcher_namespaces caller element)
            (attribute_path (Name "it") names) h
  = (Raise AttributeError, h).
Proof.
  intros Hf. rewrite eval_attribute_path. simpl. unfold reading, lookup_name. simpl.
  rewrite lookup_singleton_eq. now rewrite Hf.
Qed.

(** The names in reach of a predicate: [it], [__builtins__] and the names
    of the built-in name space. *)
Lemma matcher_lookup_name caller element id :
  lookup_name (matcher_namespaces caller element) id
  = if decide (id = "it") then Ok element
    else if decide (id = "__builtins__") then Ok VBuiltinsDict
    else match f_builtins caller !! id with
         | Some v => Ok v
         | None => Raise NameError
         end.
Proof.
  unfold lookup_name, matcher_namespaces. simpl.
  destruct (decide (id = "it")) as [-> | Hit].
  - now rewrite lookup_singleton_eq.
  - rewrite lookup_singleton_ne by congruence.
    destruct (decide (id = "__builtins__")) as [-> | Hb].
    + now rewrite lookup_singleton_eq.
    + now rewrite lookup_singleton_ne by congruence.
Qed.

(** ** Matcher *)

(** C3: when the evaluation of the predicate raises [AttributeError] (an
    attribute absent on the element, directly or along a dotted path, see
    [absent_attribute_raises] and [Matcher_call_absent_attribute]) or
    [NameError] (a name that cannot be resolved, see
    [Matcher_call_unresolved_name]), the matcher returns [False]; any other
    exception raised by the evaluation is raised by the matcher. *)
Theorem Matcher_call_tolerance caller m element h h' x :
  py_eval caller (expr m) (Some ∅) (Some {[ "it" := element ]}) h = (Raise x, h') ->
  (x = AttributeError \/ x = NameError ->
   Matcher_call caller m element h = (Ok (VBool false), h'))
  /\ (x <> AttributeError -> x <> NameError ->
      Matcher_call caller m element h = (Raise x, h')).
Proof.
  intros Heval. unfold Matcher_call, try_except. rewrite Heval. split.
  - intros [-> | ->]; reflexivity.
  - intros Ha Hn. rewrite bool_decide_eq_false_2; [reflexivity |].
    rewrite !elem_of_cons, elem_of_nil. tauto.
Qed.

(** [Matcher('it.nonexistent=="root"')(a)] is [False], and the
    [TypeError] of [it.name < 1] on a string is raised. *)
Lemma Matcher_call_tolerance_witness :
  Matcher_call module_frame {| expr := it_attr_eq "nonexistent" "root" |} (VRef 0) m_heap
  = (Ok (VBool false), m_heap)
  /\ Matcher_call module_frame {| expr := it_name_lt_1 |} (VRef 0) m_heap
     = (Raise TypeError, m_heap).
Proof.
  split.
  - refine (proj1 (Matcher_call_tolerance module_frame _ (VRef 0) m_heap m_heap
                     AttributeError _) _).
    + vm_compute. reflexivity.
    + left. reflexivity.
  - refine (proj2 (Matcher_call_tolerance module_frame _ (VRef 0) m_heap m_heap
                     TypeError _) _ _).
    + vm_compute. reflexivity.
    + discriminate.
    + discriminate.
Defined.

(** The predicates of the docstring, [it.a1...an == c] and the like: when
    an attribute of the path is absent, the matcher returns [False]. *)
Lemma Matcher_call_absent_attribute caller element names op c h :
  follow h element names = Raise AttributeError ->
  Matcher_call caller
    {| expr := Compare (attribute_path (Name "it") names) op (Constant c) |} element h
  = (Ok (VBool false), h).
Proof.
  intros Hf. rewrite Matcher_call_unfold. simpl.
  rewrite (bind_raise _ _ _ _ _ (absent_attribute_raises caller element names h Hf)).
  reflexivity.
Qed.

(** A name that is neither [it] nor [__builtins__] nor a built-in name:
    the matcher returns [False]. *)
Lemma Matcher_call_unresolved_name caller element id h :
  id <> "it" -> id <> "__builtins__" -> f_builtins caller !! id = None ->
  Matcher_call caller {| expr := Name id |} element h = (Ok (VBool false), h).
Proof.
  intros Hit Hb Hnone. rewrite Matcher_call_unfold. simpl. unfold reading.
  rewrite matcher_lookup_name.
  destruct (decide (id = "it")); [contradiction |].
  destruct (decide (id = "__builtins__")); [contradiction |].
  now rewrite Hnone.
Qed.







(** ** recurseproxy *)


Lemma py_iter_error h v x :
  py_iter h v = Raise x -> x = TypeError \/ x = SystemError.
Proof.
  unfold py_iter. destruct v; try (intros [= <-]; now left); try discriminate.
  destruct (h !! l) as [[c attrs | c items attrs] |]; intros [= <-]; auto.
Qed.















(** ** Method resolution *)

Section Dispatch.

Variable parse : string -> compiled.
Variable caller : frame.

Lemma getitem_dispatch cls key :
  getitem parse caller cls key = dispatch parse caller cls key (cls_mixins cls).
Proof.
  destruct key; simpl; generalize (cls_mixins cls) as mro;
    induction mro as [| [|] rest IH]; simpl; try reflexivity; now rewrite IH.
Qed.

(** The marker of the class is recognised, and nothing else is. *)
Lemma compare_trigger h key :
  py_compare h OpEq key recursemixin_trigger = Ok (VBool (is_trigger key)).
Proof.
  unfold py_compare, recursemixin_trigger.
  change recursion_limit with (S (S 998)).
  destruct key as [| b | z | s | vs | start stop step | l | f | | self name |];
    try reflexivity.
  destruct start as [a |], stop as [b |], step as [c |]; reflexivity.
Qed.

Lemma is_trigger_spec key : is_trigger key = true <-> key = recursemixin_trigger.
Proof.
  split; [| intros ->; reflexivity].
  destruct key as [| | | | | [?|] [?|] [?|] | | | | |]; simpl; try discriminate.
  reflexivity.
Qed.

(** *** The hooks of a sequence *)

Lemma getattr_of_sequence h self cls items attrs name :
  h !! self = Some (Seq cls items attrs) ->
  special name = false ->
  py_getattr h (VRef self) name
  = match attrs !! name, class_attr cls (VRef self) name with
    | Some a, _ => Ok a
    | None, Some a => Ok a
    | None, None => Raise AttributeError
    end.
Proof. intros Hself Hs. unfold py_getattr. now rewrite Hs, Hself. Qed.

Lemma marker_of_class h self cls items attrs :
  h !! self = Some (Seq cls items attrs) ->
  own_marker cls attrs = None ->
  default_marker h self (cls_mixins cls).
Proof.
  intros Hself Hown Hin.
  rewrite (getattr_of_sequence h self cls items attrs) by (assumption || reflexivity).
  unfold own_marker in Hown. rewrite bool_decide_eq_true_2 in Hown by assumption.
  rewrite Hown. unfold class_attr. rewrite bool_decide_eq_true_2 by assumption.
  reflexivity.
Qed.

Lemma default_marker_tail h self m mro :
  default_marker h self (m :: mro) -> default_marker h self mro.
Proof. intros Hm Hin. apply Hm. now right. Qed.

Lemma default_hooks_tail h self m mro :
  default_hooks h self (m :: mro) -> default_hooks h self mro.
Proof. intros Hm Hin. apply Hm. now right. Qed.

Lemma default_hooks_marker h self mro :
  default_hooks h self mro -> default_marker h self mro.
Proof.
  intros Hh Hin. destruct (Hh Hin) as (cls & items & attrs & Hself & Hc & Ht & _).
  apply (marker_of_class h self cls items attrs Hself); [| exact Hc].
  unfold own_marker. now rewrite bool_decide_eq_true_2.
Qed.



(** A key that is not the marker goes to [super()]. *)
Lemma recursemixin_getitem_other super self key h :
  py_getattr h (VRef self) "_recursemixin_trigger" = Ok recursemixin_trigger ->
  is_trigger key = false ->
  recursemixin_getitem super self key h = super self key h.
Proof.
  intros Hm Hkey. unfold recursemixin_getitem.
  rewrite bind_reading, Hm, bind_reading, compare_trigger, Hkey. reflexivity.
Qed.

(** The marker gives a proxy over the sequence. *)
Lemma recursemixin_getitem_marker super self cls items attrs h :
  h !! self = Some (Seq cls items attrs) ->
  Recursemixin ∈ cls_mixins cls ->
  attrs !! "_recursemixin_trigger" = None ->
  attrs !! "proxy_class" = None ->
  recursemixin_getitem super self recursemixin_trigger h
  = (Ok (PProxy (recurseproxy_init self)), h).
Proof.
  intros Hself Hin Ht Hp. unfold recursemixin_getitem.
  rewrite bind_reading.
  rewrite (getattr_of_sequence h self cls items attrs) by (assumption || reflexivity).
  rewrite Ht. unfold class_attr at 1. rewrite bool_decide_eq_true_2 by assumption.
  cbn [andb String.eqb Ascii.eqb Bool.eqb].
  rewrite bind_reading, compare_trigger. cbn [is_trigger recursemixin_trigger].
  rewrite bind_reading. cbn [py_truthy].
  rewrite bind_reading.
  rewrite (getattr_of_sequence h self cls items attrs) by (assumption || reflexivity).
  rewrite Hp. unfold class_attr. rewrite bool_decide_eq_true_2 by assumption.
  cbn [andb String.eqb Ascii.eqb Bool.eqb].
  unfold py_call. rewrite bind_assoc, bind_reading.
  unfold is_recursive. rewrite Hself, bool_decide_eq_true_2 by assumption.
  reflexivity.
Qed.

(** A call without arguments returns nothing but the class [recurseproxy],
    from [proxy_class], and changes nothing. *)
Lemma py_call_nullary f h c h' :
  py_call f [] h = (Ok c, h') -> c = VRecurseproxy /\ h' = h.
Proof.
  destruct f as [| | | | | | | [] | | self name |]; try discriminate.
  unfold py_call. rewrite bind_reading.
  destruct (_ && _); [| discriminate]. now intros [= <- <-].
Qed.

Lemma dispatch_trigger cls mro self h :
  Recursemixin ∈ mro ->
  default_hooks h self mro ->
  dispatch parse caller cls recursemixin_trigger mro self h
  = (Ok (PProxy (recurseproxy_init self)), h).
Proof.
  induction mro as [| [|] rest IH]; intros Hin Hh.
  - now apply elem_of_nil in Hin.
  - apply elem_of_cons in Hin as [Hq | Hin]; [discriminate |].
    simpl. unfold querymixin_getitem, try_except.
    rewrite IH; [reflexivity | assumption | now apply default_hooks_tail in Hh].
  - simpl. destruct (Hh ltac:(left)) as (c & items & attrs & Hself & Hc & Ht & Hp).
    now apply (recursemixin_getitem_marker _ self c items attrs).
Qed.

(** C4, amended: on a sequence whose class inherits from [recursemixin]
    and whose [__dict__] binds neither [_recursemixin_trigger] nor
    [proxy_class], indexing with the whole-range marker returns, for every
    content of the sequence, a proxy over the sequence itself, and raises
    nothing; for any other key [recursemixin.__getitem__] is
    [super().__getitem__]. *)
Theorem recursemixin_getitem_trigger cls self items attrs key h super :
  Recursemixin ∈ cls_mixins cls ->
  h !! self = Some (Seq cls items attrs) ->
  attrs !! "_recursemixin_trigger" = None ->
  attrs !! "proxy_class" = None ->
  key <> recursemixin_trigger ->
  getitem parse caller cls recursemixin_trigger self h
  = (Ok (PProxy {| sequence := self |}), h)
  /\ recursemixin_getitem super self key h = super self key h.
Proof.
  intros Hin Hself Ht Hp Hkey.
  assert (Hh : default_hooks h self (cls_mixins cls)).
  { intros _. now exists cls, items, attrs. }
  split.
  - rewrite getitem_dispatch. now apply dispatch_trigger.
  - apply recursemixin_getitem_other.
    + now apply (default_hooks_marker h self (cls_mixins cls)).
    + destruct (is_trigger key) eqn:E; [| reflexivity].
      apply is_trigger_spec in E. contradiction.
Qed.

(** What [list.__getitem__] returns is no proxy. *)
Lemma list_getitem_value self key h r h' :
  list_getitem self key h = (Ok r, h') -> exists v, r = PVal v.
Proof.
  unfold list_getitem. rewrite bind_reading.
  destruct (py_iter h (VRef self)) as [its | x]; [| discriminate].
  destruct key; try discriminate; rewrite bind_reading.
  - destruct (index_item _ _); [| discriminate]. intros [= <- <-]. eauto.
  - destruct (index_item _ _); [| discriminate]. intros [= <- <-]. eauto.
  - destruct (slice_indices _ _ _ _); [| discriminate]. intros [= <- <-]. eauto.
Qed.

(** The proxy that an integer or a slice is answered with, the
    whole-range marker in particular, is a proxy over the sequence that
    was indexed, and the store is as it was. *)
Lemma dispatch_proxy cls key mro self h p h' :
  is_index key = true ->
  dispatch parse caller cls key mro self h = (Ok (PProxy p), h') ->
  p = recurseproxy_init self /\ h' = h.
Proof.
  intros Hkey. induction mro as [| [|] rest IH]; simpl.
  - intros E. destruct (list_getitem_value _ _ _ _ _ E) as [v Hv]. discriminate.
  - unfold querymixin_getitem, try_except.
    destruct (dispatch parse caller cls key rest self h) as [[r | x] h1]; [exact IH |].
    destruct (bool_decide (x ∈ [TypeError])); [| discriminate].
    destruct key; try discriminate; cbv beta zeta iota;
      unfold Matcher_init, py_compile, raise, bind; discriminate.
  - unfold recursemixin_getitem. rewrite bind_reading.
    destruct (py_getattr h (VRef self) _) as [trigger | x]; [| discriminate].
    rewrite bind_reading.
    destruct (py_compare h OpEq key trigger) as [same | x]; [| discriminate].
    rewrite bind_reading.
    destruct (py_truthy h same); [| exact IH].
    rewrite bind_reading.
    destruct (py_getattr h (VRef self) _) as [method | x]; [| discriminate].
    unfold bind at 1.
    destruct (py_call method [] h) as [[c | x] h1] eqn:Ec; [| discriminate].
    apply py_call_nullary in Ec as [-> ->]. now intros [= <- <-].
Qed.

(** C5: the proxy returned for the whole-range marker is a proxy over the
    sequence, and iterating it yields the items of the sequence, in order
    and as they are: [list(seq[:])] is [list(seq)].  The proxy is returned
    when the [__dict__] of the sequence binds neither
    [_recursemixin_trigger] nor [proxy_class]. *)
Theorem list_of_proxy_is_list cls self items attrs h :
  Recursemixin ∈ cls_mixins cls ->
  h !! self = Some (Seq cls items attrs) ->
  (forall p h',
     subscript parse caller self recursemixin_trigger h = (Ok (PProxy p), h') ->
     h' = h
     /\ iterate (PProxy p) h = (Ok items, h)
     /\ py_list (PProxy p) h = py_list (PVal (VRef self)) h)
  /\ (attrs !! "_recursemixin_trigger" = None ->
      attrs !! "proxy_class" = None ->
      (let* p := subscript parse caller self recursemixin_trigger in iterate p) h
      = (Ok items, h)
      /\ (let* p := subscript parse caller self recursemixin_trigger in py_list p) h
         = py_list (PVal (VRef self)) h
      /\ py_list (PVal (VRef self)) h = (Ok (length h), h ++ [Seq list_type items ∅])).
Proof.
  intros Hin Hself.
  assert (Hit : py_iter h (VRef self) = Ok items).
  { unfold py_iter. now rewrite Hself. }
  assert (Hproxy : iterate (PProxy (recurseproxy_init self)) h = (Ok items, h)).
  { unfold iterate, recurseproxy_iter, reading, recurseproxy_init.
    cbn [sequence]. now rewrite Hit. }
  split.
  - intros p h'. unfold subscript. rewrite bind_reading. unfold py_type.
    rewrite Hself, getitem_dispatch. intros E.
    apply dispatch_proxy in E as [-> ->]; [| reflexivity].
    split; [reflexivity |]. split; [exact Hproxy |].
    unfold py_list, bind. rewrite Hproxy.
    unfold iterate, reading. now rewrite Hit.
  - intros Ht Hp.
    assert (Hsub : subscript parse caller self recursemixin_trigger h
                   = (Ok (PProxy (recurseproxy_init self)), h)).
    { unfold subscript, bind, reading, py_type. rewrite Hself.
      rewrite getitem_dispatch. apply dispatch_trigger; [assumption |].
      intros _. now exists cls, items, attrs. }
    repeat split.
    + now rewrite (bind_ok _ _ _ _ _ Hsub).
    + rewrite (bind_ok _ _ _ _ _ Hsub). unfold py_list, bind.
      rewrite Hproxy. unfold iterate, reading. now rewrite Hit.
    + unfold py_list, bind, iterate, reading. rewrite Hit. reflexivity.
Qed.

(** ** querymixin *)

Lemma try_except_pass {A} (m : M A) caught handler h :
  (forall x, fst (m h) = Raise x -> x ∉ caught) ->
  try_except m caught handler h = m h.
Proof.
  intros Hno. unfold try_except.
  destruct (m h) as [[a | x] h1]; [reflexivity |].
  rewrite bool_decide_eq_false_2; [reflexivity |]. now apply Hno.
Qed.


Lemma try_except_raise {A} (m : M A) caught handler h x h' :
  m h = (Raise x, h') ->
  try_except m caught handler h
  = if bool_decide (x ∈ caught) then handler h' else (Raise x, h').
Proof. intros E. unfold try_except. now rewrite E. Qed.

Lemma subscript_at cls o items attrs key h :
  h !! o = Some (Seq cls items attrs) ->
  subscript parse caller o key h
  = dispatch parse caller cls key (cls_mixins cls) o h.
Proof.
  intros Ho. unfold subscript. rewrite bind_reading. unfold py_type.
  rewrite Ho. now rewrite getitem_dispatch.
Qed.

(** Filtering is selecting by the verdicts. *)
Lemma py_filter_verdicts function items : forall h,
  py_filter function items h
  = match verdicts function items h with
    | (Ok keeps, h') => (Ok (select items keeps), h')
    | (Raise x, h') => (Raise x, h')
    end.
Proof.
  induction items as [| x rest IH]; intros h; simpl; [reflexivity |].
  destruct (function x h) as [[r | e] h1] eqn:E.
  - rewrite !(bind_ok _ _ _ _ _ E), !bind_reading.
    unfold bind. rewrite IH.
    destruct (verdicts function rest h1) as [[keeps | e] h2]; [| reflexivity].
    unfold ret. destruct (py_truthy h1 r); reflexivity.
  - now rewrite !(bind_raise _ _ _ _ _ E).
Qed.

(** Where the verdicts change nothing, they are those of [List.filter]. *)
Lemma verdicts_pure function items h :
  (forall x, x ∈ items -> exists v, function x h = (Ok v, h)) ->
  verdicts function items h
  = (Ok (map (fun x => match fst (function x h) with
                       | Ok v => py_truthy h v
                       | Raise _ => false
                       end) items), h).
Proof.
  induction items as [| x rest IH]; intros Hpure; simpl; [reflexivity |].
  destruct (Hpure x) as [v Hv]; [left |].
  rewrite (bind_ok _ _ _ _ _ Hv), bind_reading.
  unfold bind. rewrite IH.
  - rewrite Hv. reflexivity.
  - intros y Hy. apply Hpure. now right.
Qed.

Lemma select_map_filter (keep : value -> bool) items :
  select items (map keep items) = List.filter keep items.
Proof.
  induction items as [| x rest IH]; simpl; [reflexivity |].
  rewrite IH. reflexivity.
Qed.

Lemma not_index_not_trigger key : is_index key = false -> is_trigger key = false.
Proof. destruct key; try discriminate; reflexivity. Qed.

(** On a key that is neither an index nor the whole-range marker, the
    classes without [querymixin] raise [TypeError]. *)
Lemma dispatch_not_query cls key mro self h c items attrs :
  Querymixin ∉ mro ->
  is_index key = false ->
  h !! self = Some (Seq c items attrs) ->
  default_marker h self mro ->
  dispatch parse caller cls key mro self h = (Raise TypeError, h).
Proof.
  intros Hnq Hkey Hself.
  induction mro as [| [|] rest IH]; intros Hm; simpl.
  - unfold list_getitem, bind, reading, py_iter. rewrite Hself.
    destruct key; try discriminate; reflexivity.
  - exfalso. apply Hnq. left.
  - rewrite recursemixin_getitem_other;
      [| apply Hm; left | now apply not_index_not_trigger].
    apply IH; [| now apply default_marker_tail in Hm].
    intros Hin. apply Hnq. now right.
Qed.

(** The matcher trick of [querymixin.__getitem__], once [super()] has
    raised [TypeError]: the key, or the head of a tuple key, is compiled,
    the items are filtered, and the remainder, when there is one, is
    handed to [__getitem__] of the new sequence. *)
Lemma querymixin_getitem_trick super cls bound self key p remainder
    code c items attrs keeps h h' :
  super self key h = (Raise TypeError, h) ->
  key = VStr p /\ remainder = [] \/ key = VTuple (VStr p :: remainder) ->
  parse p = Code code ->
  h !! self = Some (Seq c items attrs) ->
  verdicts (Matcher_call caller {| expr := code |}) items h = (Ok keeps, h') ->
  querymixin_getitem parse caller super cls bound self key h
  = match remainder with
    | [] => (Ok (PVal (VRef (length h'))), h' ++ [Seq cls (select items keeps) ∅])
    | _ :: _ => bound (length h') remainder (h' ++ [Seq cls (select items keeps) ∅])
    end.
Proof.
  intros Hsuper Hkey Hparse Hself Hverdicts.
  assert (Htrick : forall rem,
    (let* matcher := Matcher_init parse (VStr p) in
     let* its := reading (fun h0 => py_iter h0 (VRef self)) in
     let* matched := py_filter (Matcher_call caller matcher) its in
     match rem with
     | Some ((_ :: _) as r) =>
         let* o := alloc (Seq cls matched ∅) in bound o r
     | _ => let* o := alloc (Seq cls matched ∅) in ret (PVal (VRef o))
     end) h
    = match rem with
      | Some ((_ :: _) as r) =>
          bound (length h') r (h' ++ [Seq cls (select items keeps) ∅])
      | _ => (Ok (PVal (VRef (length h'))), h' ++ [Seq cls (select items keeps) ∅])
      end).
  { intros rem.
    assert (Hinit : Matcher_init parse (VStr p) h = (Ok {| expr := code |}, h)).
    { unfold Matcher_init, py_compile. now rewrite Hparse. }
    rewrite (bind_ok _ _ _ _ _ Hinit), bind_reading.
    unfold py_iter. rewrite Hself.
    unfold bind at 1. rewrite py_filter_verdicts, Hverdicts.
    destruct rem as [[| k r] |]; reflexivity. }
  destruct Hkey as [[-> ->] | ->];
    unfold querymixin_getitem, try_except; rewrite Hsuper;
    rewrite bool_decide_eq_true_2 by left; cbv beta zeta iota.
  - apply (Htrick None).
  - rewrite <- (Htrick (Some remainder)). reflexivity.
Qed.

(** A string key reaches the matcher trick of the first [querymixin] of
    the MRO. *)
Lemma dispatch_filter cls mro self p code items attrs keeps h h' :
  Querymixin ∈ mro ->
  h !! self = Some (Seq cls items attrs) ->
  default_marker h self mro ->
  parse p = Code code ->
  verdicts (Matcher_call caller {| expr := code |}) items h = (Ok keeps, h') ->
  dispatch parse caller cls (VStr p) mro self h
  = (Ok (PVal (VRef (length h'))), h' ++ [Seq cls (select items keeps) ∅]).
Proof.
  intros Hin Hself Hm Hparse Hverdicts.
  induction mro as [| [|] rest IH].
  - now apply elem_of_nil in Hin.
  - pose proof (default_marker_tail _ _ _ _ Hm) as Hm'.
    simpl. destruct (decide (Querymixin ∈ rest)) as [Hrest | Hrest].
    + unfold querymixin_getitem, try_except. now rewrite (IH Hrest Hm').
    + rewrite (querymixin_getitem_trick _ _ _ _ _ p [] code cls items attrs keeps h h');
        auto.
      now apply (dispatch_not_query cls (VStr p) rest self h cls items attrs).
  - apply elem_of_cons in Hin as [Hq | Hin]; [discriminate |].
    simpl. rewrite recursemixin_getitem_other; [| apply Hm; left | reflexivity].
    apply IH; [assumption | now apply default_marker_tail in Hm].
Qed.

(** What the matcher raises on an item, [seq[p]] raises. *)
Lemma subscript_string_key_raises cls self items attrs p code x h h' :
  NoDup (cls_mixins cls) ->
  Querymixin ∈ cls_mixins cls ->
  h !! self = Some (Seq cls items attrs) ->
  own_marker cls attrs = None ->
  parse p = Code code ->
  verdicts (Matcher_call caller {| expr := code |}) items h = (Raise x, h') ->
  subscript parse caller self (VStr p) h = (Raise x, h').
Proof.
  intros Hnd Hin Hself Hown Hparse Hverdicts.
  rewrite (subscript_at cls self items attrs _ h Hself).
  pose proof (marker_of_class h self cls items attrs Hself Hown) as Hm.
  induction (cls_mixins cls) as [| [|] rest IH].
  - now apply elem_of_nil in Hin.
  - apply NoDup_cons in Hnd as [Hrest _]. simpl.
    unfold querymixin_getitem.
    erewrite try_except_raise;
      [| apply (dispatch_not_query cls (VStr p) rest self h cls items attrs); auto;
         now apply default_marker_tail in Hm].
    rewrite bool_decide_eq_true_2 by left. cbv beta zeta iota.
    assert (Hinit : Matcher_init parse (VStr p) h = (Ok {| expr := code |}, h)).
    { unfold Matcher_init, py_compile. now rewrite Hparse. }
    rewrite (bind_ok _ _ _ _ _ Hinit), bind_reading.
    unfold py_iter. rewrite Hself.
    unfold bind at 1. now rewrite py_filter_verdicts, Hverdicts.
  - apply NoDup_cons in Hnd as [_ Hnd].
    apply elem_of_cons in Hin as [Hq | Hin]; [discriminate |].
    simpl. rewrite recursemixin_getitem_other; [| apply Hm; left | reflexivity].
    apply IH; [assumption | assumption | now apply default_marker_tail in Hm].
Qed.

Lemma subscript_string_key cls self items attrs p code keeps h h' :
  Querymixin ∈ cls_mixins cls ->
  h !! self = Some (Seq cls items attrs) ->
  own_marker cls attrs = None ->
  parse p = Code code ->
  verdicts (Matcher_call caller {| expr := code |}) items h = (Ok keeps, h') ->
  subscript parse caller self (VStr p) h
  = (Ok (PVal (VRef (length h'))), h' ++ [Seq cls (select items keeps) ∅]).
Proof.
  intros Hin Hself Hown Hparse Hverdicts.
  rewrite (subscript_at cls self items attrs _ h Hself).
  apply (dispatch_filter cls _ self p code items attrs keeps h h'); auto.
  now apply (marker_of_class h self cls items attrs).
Qed.

(** C1, amended: for a sequence whose class inherits from [querymixin] and
    a string [p] that compiles, if the matcher raises nothing on the items
    of the sequence, [seq[p]] is a new object of the class of [seq] whose
    items are exactly the items on which the matcher returned a true value,
    in their order.  (When the class inherits from [recursemixin] as well,
    the sequence is one that has not rebound the whole-range marker.) *)
Theorem querymixin_getitem_filters cls self items attrs p code keeps h h' :
  Querymixin ∈ cls_mixins cls ->
  h !! self = Some (Seq cls items attrs) ->
  own_marker cls attrs = None ->
  parse p = Code code ->
  verdicts (Matcher_call caller {| expr := code |}) items h = (Ok keeps, h') ->
  subscript parse caller self (VStr p) h
  = (Ok (PVal (VRef (length h'))), h' ++ [Seq cls (select items keeps) ∅]).
Proof. apply subscript_string_key. Qed.

(** For a predicate that changes nothing, this is [List.filter]. *)
Corollary querymixin_getitem_filter_pure cls self items attrs p code h :
  Querymixin ∈ cls_mixins cls ->
  h !! self = Some (Seq cls items attrs) ->
  own_marker cls attrs = None ->
  parse p = Code code ->
  (forall x, x ∈ items -> exists v, Matcher_call caller {| expr := code |} x h = (Ok v, h)) ->
  subscript parse caller self (VStr p) h
  = (Ok (PVal (VRef (length h))),
     h ++ [Seq cls (List.filter (matches caller {| expr := code |} h) items) ∅]).
Proof.
  intros Hin Hself Hown Hparse Hpure.
  rewrite <- select_map_filter.
  apply (subscript_string_key cls self items attrs p code); auto.
  now apply verdicts_pure.
Qed.

(** ** The one-element tuple *)



(** ** A predicate and an index *)

Lemma bind_try_raise {A B} (m : M A) caught handler (k : A -> M B) h x h' :
  m h = (Raise x, h') ->
  bind (try_except m caught handler) k h
  = if bool_decide (x ∈ caught) then bind handler k h' else (Raise x, h').
Proof.
  intros E. unfold bind, try_except. rewrite E.
  destruct (bool_decide _); reflexivity.
Qed.

Lemma index_item_error items i x :
  index_item items i = Raise x -> x = IndexError.
Proof.
  unfold index_item. destruct (_ || _); [congruence |].
  destruct (items !! _); congruence.
Qed.

Lemma slice_indices_error len start stop step x :
  slice_indices len start stop step = Raise x -> x = ValueError.
Proof.
  unfold slice_indices. destruct (_ =? _)%Z; congruence.
Qed.

(** An integer or a slice is a key of every class: indexing with it does
    not raise [TypeError]. *)
Lemma dispatch_index_typed cls i mro o h c items attrs :
  is_index i = true ->
  h !! o = Some (Seq c items attrs) ->
  default_marker h o mro ->
  (is_trigger i = true -> default_hooks h o mro) ->
  fst (dispatch parse caller cls i mro o h) <> Raise TypeError.
Proof.
  intros Hi Ho. induction mro as [| [|] rest IH]; intros Hm Hh; simpl.
  - unfold list_getitem. rewrite bind_reading. unfold py_iter. rewrite Ho.
    destruct i as [| b | z | | | start stop step | | | | |]; try discriminate;
      rewrite bind_reading.
    + destruct (index_item items (Z.b2z b)) eqn:E; simpl; [discriminate |].
      apply index_item_error in E. now subst.
    + destruct (index_item items z) eqn:E; simpl; [discriminate |].
      apply index_item_error in E. now subst.
    + destruct (slice_indices _ start stop step) eqn:E; simpl; [discriminate |].
      apply slice_indices_error in E. now subst.
  - unfold querymixin_getitem. rewrite try_except_pass.
    + apply IH; [now apply default_marker_tail in Hm |].
      intros Ht. now apply (default_hooks_tail h o Querymixin), Hh.
    + intros x Hx Hin. apply list_elem_of_singleton in Hin. subst.
      revert Hx. apply IH; [now apply default_marker_tail in Hm |].
      intros Ht. now apply (default_hooks_tail h o Querymixin), Hh.
  - destruct (is_trigger i) eqn:Et.
    + apply is_trigger_spec in Et. subst i.
      destruct (Hh eq_refl ltac:(left)) as (c' & its & ats & Hself & Hc & Ht & Hp).
      rewrite (recursemixin_getitem_marker _ o c' its ats) by assumption.
      discriminate.
    + rewrite recursemixin_getitem_other; [| apply Hm; left | exact Et].
      apply IH; [now apply default_marker_tail in Hm | discriminate].
Qed.






(** ** Longer tuples *)

Lemma dispatch_long_tuple cls mro self items attrs p code keeps k1 k2 more h h' :
  NoDup mro ->
  Querymixin ∈ mro ->
  h !! self = Some (Seq cls items attrs) ->
  default_marker h self mro ->
  parse p = Code code ->
  verdicts (Matcher_call caller {| expr := code |}) items h = (Ok keeps, h') ->
  dispatch parse caller cls (VTuple (VStr p :: k1 :: k2 :: more)) mro self h
  = (Raise TypeError, h' ++ [Seq cls (select items keeps) ∅]).
Proof.
  intros Hnd Hin Hself Hm Hparse Hverdicts.
  induction mro as [| [|] rest IH].
  - now apply elem_of_nil in Hin.
  - apply NoDup_cons in Hnd as [Hrest _]. simpl.
    rewrite (querymixin_getitem_trick _ _ _ _ _ p (k1 :: k2 :: more)
               code cls items attrs keeps h h'); auto.
    apply (dispatch_not_query cls _ rest self h cls items attrs); auto.
    now apply default_marker_tail in Hm.
  - apply NoDup_cons in Hnd as [_ Hnd].
    apply elem_of_cons in Hin as [Hq | Hin]; [discriminate |].
    simpl. rewrite recursemixin_getitem_other; [| apply Hm; left | reflexivity].
    apply IH; auto. now apply default_marker_tail in Hm.
Qed.

(** C7: the code does not do what the claim says.  With a key of three
    or more components, the remainder is unpacked into the positional
    arguments of [__getitem__], which takes one: after the filter has
    run, the call raises [TypeError], whatever the remainder is. *)
Theorem long_tuple_key_raises cls self items attrs p code keeps k1 k2 more h h' :
  NoDup (cls_mixins cls) ->
  Querymixin ∈ cls_mixins cls ->
  h !! self = Some (Seq cls items attrs) ->
  own_marker cls attrs = None ->
  parse p = Code code ->
  verdicts (Matcher_call caller {| expr := code |}) items h = (Ok keeps, h') ->
  subscript parse caller self (VTuple (VStr p :: k1 :: k2 :: more)) h
  = (Raise TypeError, h' ++ [Seq cls (select items keeps) ∅]).
Proof.
  intros Hnd Hin Hself Hown Hparse Hverdicts.
  rewrite (subscript_at cls self items attrs _ h Hself).
  apply (dispatch_long_tuple cls _ self items attrs p code keeps); auto.
  now apply (marker_of_class h self cls items attrs).
Qed.

End Dispatch.

(** C1, as stated, fails: [it.name < 1] compiles, and on the three named
    elements [m['it.name < 1']] raises the [TypeError] of the comparison
    instead of returning a sequence. *)
Lemma querymixin_getitem_counterexample :
  sample_parse "it.name < 1" = Code it_name_lt_1
  /\ fst (subscript sample_parse module_frame 3%nat (VStr "it.name < 1") m_heap)
     = Raise TypeError.
Proof. split; vm_compute; reflexivity. Qed.

(** [m['it.name=="two"']] is an [MList] holding the second element. *)
Lemma querymixin_getitem_filters_witness :
  subscript sample_parse module_frame 3%nat (VStr "it.name=='two'") m_heap
  = (Ok (PVal (VRef 4)), m_heap ++ [Seq MList [VRef 1] ∅]).
Proof.
  apply (querymixin_getitem_filters sample_parse module_frame MList 3%nat
           [VRef 0; VRef 1; VRef 2] ∅ "it.name=='two'" (it_attr_eq "name" "two")
           [false; true; false] m_heap m_heap).
  - left.
  - reflexivity.
  - reflexivity.
  - reflexivity.
  - vm_compute. reflexivity.
Defined.


Example query_then_index_two :
  fst (subscript sample_parse module_frame 3%nat
         (VTuple [VStr "it.name=='two'"; VInt 0]) m_heap)
  = Ok (PVal (VRef 1)).
Proof. vm_compute. reflexivity. Qed.

Example query_then_index_nope :
  fst (subscript sample_parse module_frame 3%nat
         (VTuple [VStr "it.name=='nope'"; VInt 0]) m_heap)
  = Raise IndexError.
Proof. vm_compute. reflexivity. Qed.

(** [m['it.name=="two"', 'it.name=="two"', 0]] raises [TypeError]. *)
Lemma long_tuple_key_raises_witness :
  subscript sample_parse module_frame 3%nat
    (VTuple [VStr "it.name=='two'"; VStr "it.name=='two'"; VInt 0]) m_heap
  = (Raise TypeError, m_heap ++ [Seq MList [VRef 1] ∅]).
Proof.
  apply (long_tuple_key_raises sample_parse module_frame MList 3%nat
           [VRef 0; VRef 1; VRef 2] ∅ "it.name=='two'" (it_attr_eq "name" "two")
           [false; true; false] (VStr "it.name=='two'") (VInt 0) [] m_heap m_heap).
  - apply NoDup_singleton.
  - left.
  - reflexivity.
  - reflexivity.
  - reflexivity.
  - vm_compute. reflexivity.
Defined.

(** The three steps the key stands for, one after the other, succeed. *)
Example chained_indexing :
  fst ((let* first := subscript sample_parse module_frame 3%nat (VStr "it.name=='two'") in
        let* second := index_result sample_parse module_frame first (VStr "it.name=='two'") in
        index_result sample_parse module_frame second (VInt 0)) m_heap)
  = Ok (PVal (VRef 1)).
Proof. vm_compute. reflexivity. Qed.

(** A nested tuple does what the flat one does not. *)
Example nested_tuple_key :
  fst (subscript sample_parse module_frame 3%nat
         (VTuple [VStr "it.name=='two'"; VTuple [VStr "it.name=='two'"; VInt 0]]) m_heap)
  = Ok (PVal (VRef 1)).
Proof. vm_compute. reflexivity. Qed.



(** [a.children[:]] is a proxy over [a.children], and [a.children[1]] is
    what the list returns. *)
Lemma recursemixin_getitem_trigger_witness :
  getitem sample_parse module_frame rlist recursemixin_trigger a_children a_heap
  = (Ok (PProxy {| sequence := a_children |}), a_heap)
  /\ recursemixin_getitem list_getitem a_children (VInt 1) a_heap
     = list_getitem a_children (VInt 1) a_heap.
Proof.
  apply (recursemixin_getitem_trigger sample_parse module_frame rlist a_children
           [VRef 7; VRef 13] ∅ (VInt 1) a_heap list_getitem).
  - left.
  - reflexivity.
  - reflexivity.
  - reflexivity.
  - discriminate.
Defined.

(** C4, as stated, fails: the marker and the class of the proxy are read
    off the sequence, and the sequence can rebind them.  After
    [s._recursemixin_trigger = 0] on [s = rlist([7])], [s[:]] is a plain
    list, a copy of [s], and [s[0]] is a proxy; after [t.proxy_class = 3],
    [t[:]] raises [TypeError]. *)
Lemma recursemixin_getitem_rebound_counterexample :
  py_setattr (VRef 0) "_recursemixin_trigger" (VInt 0) [Seq rlist [VInt 7] ∅]
  = (Ok VNone, rebound_heap)
  /\ subscript sample_parse module_frame 0%nat recursemixin_trigger rebound_heap
     = (Ok (PVal (VRef 1)), rebound_heap ++ [Seq list_type [VInt 7] ∅])
  /\ subscript sample_parse module_frame 0%nat (VInt 0) rebound_heap
     = (Ok (PProxy {| sequence := 0%nat |}), rebound_heap)
  /\ py_setattr (VRef 0) "proxy_class" (VInt 3) [Seq rlist [VInt 7] ∅]
     = (Ok VNone, uncallable_heap)
  /\ subscript sample_parse module_frame 0%nat recursemixin_trigger uncallable_heap
     = (Raise TypeError, uncallable_heap).
Proof. repeat split; vm_compute; reflexivity. Qed.

(** The children of [b] are an empty [rlist], at address 0. *)
Example empty_rlist_proxy :
  a_heap !! 0%nat = Some (Seq rlist [] ∅)
  /\ subscript sample_parse module_frame 0%nat recursemixin_trigger a_heap
     = (Ok (PProxy {| sequence := 0%nat |}), a_heap).
Proof. split; vm_compute; reflexivity. Qed.

Example a_children_1_name :
  fst ((let* e := subscript sample_parse module_frame a_children (VInt 1) in
        match e with
        | PVal v => reading (fun h => py_getattr h v "name")
        | PProxy _ => raise TypeError
        end) a_heap)
  = Ok (VStr "e").
Proof. vm_compute. reflexivity. Qed.

(** [list(a.children[:])] is [list(a.children)]. *)
Lemma list_of_proxy_is_list_witness :
  (let* p := subscript sample_parse module_frame a_children recursemixin_trigger in
   iterate p) a_heap
  = (Ok [VRef 7; VRef 13], a_heap)
  /\ (let* p := subscript sample_parse module_frame a_children recursemixin_trigger in
      py_list p) a_heap
     = py_list (PVal (VRef a_children)) a_heap.
Proof.
  destruct (list_of_proxy_is_list sample_parse module_frame rlist a_children
              [VRef 7; VRef 13] ∅ a_heap) as [_ Hreturned].
  - left.
  - reflexivity.
  - destruct (Hreturned eq_refl eq_refl) as (Hiter & Hlist & _). now split.
Defined.

(** [list(a.children[:].name)] is [['a', 'e']]. *)
Example a_children_names :
  fst ((let* p := recurseproxy_getattr {| sequence := a_children |} "name" in
        iterate (PProxy p)) a_heap)
  = Ok [VStr "a"; VStr "e"].
Proof. vm_compute. reflexivity. Qed.

(** [list(a.children[:].children.name)] is [['b', 'c', 'd', 'one', 'two']]. *)
Example a_grandchildren_names :
  fst ((let* p := recurseproxy_getattr {| sequence := a_children |} "children" in
        let* q := recurseproxy_getattr p "name" in
        iterate (PProxy q)) a_heap)
  = Ok [VStr "b"; VStr "c"; VStr "d"; VStr "one"; VStr "two"].
Proof. vm_compute. reflexivity. Qed.

(** An element without the attribute is left out: a number among the
    named elements contributes nothing to [.name]. *)
Example projection_skips :
  let h := m_heap ++ [Seq rlist [VRef 0; VInt 5; VRef 2] ∅] in
  fst ((let* p := recurseproxy_getattr {| sequence := 4%nat |} "name" in
        iterate (PProxy p)) h)
  = Ok [VStr "one"; VStr "three"].
Proof. vm_compute. reflexivity. Qed.

(** An attribute of the type is an attribute: [list(rlist([1, 2])[:].real)]
    is [[1, 2]], and [list(a.children[:].dump)] holds the two bound
    methods. *)
Example projection_of_type_attributes :
  fst ((let* p := recurseproxy_getattr {| sequence := 0%nat |} "real" in
        iterate (PProxy p)) [Seq rlist [VInt 1; VInt 2] ∅])
  = Ok [VInt 1; VInt 2]
  /\ fst ((let* p := recurseproxy_getattr {| sequence := a_children |} "dump" in
           iterate (PProxy p)) a_heap)
     = Ok [VMethod (VRef 7) "dump"; VMethod (VRef 13) "dump"].
Proof. split; vm_compute; reflexivity. Qed.

(** The examples of the docstring of [issafeiterable], as far as the
    values exist in the model. *)
Example issafeiterable_examples :
  fst (issafeiterable (VRef 0) a_heap) = Ok true
  /\ fst (issafeiterable (VTuple []) a_heap) = Ok true
  /\ fst (issafeiterable (VInt 1) a_heap) = Ok false
  /\ fst (issafeiterable (VStr "text") a_heap) = Ok false.
Proof. repeat split; vm_compute; reflexivity. Qed.

(** The examples of the docstring of [Matcher], on the element named
    [one]. *)
Example Matcher_examples :
  let call e := fst (Matcher_call module_frame {| expr := e |} (VRef 0) m_heap) in
  call (it_attr_eq "name" "one") = Ok (VBool true)
  /\ call (it_attr_eq "name" "blah") = Ok (VBool false)
  /\ call (it_attr_eq "nonexistent" "root") = Ok (VBool false).
Proof. repeat split; vm_compute; reflexivity. Qed.

(** * Further properties of the module *)

(** ** Comparisons *)

Lemma richcmp_S n h op a b :
  richcmp (S n) h op a b
  = let sequences (xs ys : list value) : result bool :=
      match op with
      | OpEq => if Nat.eqb (length xs) (length ys)
                then lexicographic (richcmp n h) op xs ys else Ok false
      | OpNotEq => if Nat.eqb (length xs) (length ys)
                   then lexicographic (richcmp n h) op xs ys else Ok true
      | _ => lexicographic (richcmp n h) op xs ys
      end in
    let unordered (same : bool) : result bool :=
      match op with
      | OpEq => Ok same
      | OpNotEq => Ok (negb same)
      | _ => Raise TypeError
      end in
    match as_number a, as_number b with
    | Some x, Some y => Ok (holds op (Z.compare x y))
    | _, _ =>
        match a, b with
        | VStr x, VStr y => Ok (holds op (String.compare x y))
        | VTuple xs, VTuple ys => sequences xs ys
        | VRef la, VRef lb =>
            match h !! la, h !! lb with
            | Some (Seq _ xs _), Some (Seq _ ys _) =>
                if Nat.eqb la lb then Ok (holds op Eq) else sequences xs ys
            | Some _, Some _ => unordered (Nat.eqb la lb)
            | _, _ => Raise SystemError
            end
        | VSlice s1 e1 t1, VSlice s2 e2 t2 =>
            sequences (slice_fields s1 e1 t1) (slice_fields s2 e2 t2)
        | VMethod _ _, VMethod _ _ => Raise Unsupported
        | _, _ => unordered (py_is a b)
        end
    end.
Proof. reflexivity. Qed.


Lemma lexicographic_raises (P : exc -> Prop) compare op xs : forall ys e,
  (forall op' x y e', compare op' x y = Raise e' -> P e') ->
  lexicographic compare op xs ys = Raise e -> P e.
Proof.
  induction xs as [| x xs IH]; intros ys e Hc; [discriminate |].
  destruct ys as [| y ys]; [discriminate |]. simpl.
  destruct (compare OpEq x y) as [[|] | e'] eqn:E.
  - now apply IH.
  - destruct op; try discriminate; apply Hc.
  - intros [= <-]. now apply (Hc OpEq x y).
Qed.

(** A comparison raises neither [AttributeError] nor [NameError]. *)
Lemma richcmp_quiet n : forall h op a b e,
  richcmp n h op a b = Raise e -> e <> AttributeError /\ e <> NameError.
Proof.
  induction n as [| n IH]; intros h op a b e; [intros [= <-]; split; discriminate |].
  rewrite richcmp_S. cbv zeta.
  assert (Hlex : forall xs ys,
    lexicographic (richcmp n h) op xs ys = Raise e ->
    e <> AttributeError /\ e <> NameError).
  { intros xs ys.
    apply (lexicographic_raises (fun e => e <> AttributeError /\ e <> NameError)).
    intros op' x y e'. apply IH. }
  assert (Hseq : forall xs ys,
    match op with
    | OpEq => if Nat.eqb (length xs) (length ys)
              then lexicographic (richcmp n h) op xs ys else Ok false
    | OpNotEq => if Nat.eqb (length xs) (length ys)
                 then lexicographic (richcmp n h) op xs ys else Ok true
    | _ => lexicographic (richcmp n h) op xs ys
    end = Raise e -> e <> AttributeError /\ e <> NameError).
  { intros xs ys. destruct op; try apply Hlex;
      (destruct (Nat.eqb _ _); [apply Hlex | discriminate]). }
  assert (Hun : forall same,
    match op with
    | OpEq => Ok same
    | OpNotEq => Ok (negb same)
    | _ => Raise TypeError
    end = Raise e -> e <> AttributeError /\ e <> NameError).
  { intros same. destruct op; intros [= <-]; split; discriminate. }
  destruct a as [| ? | ? | ? | xs | s1 e1 t1 | la | ? | | ? ? |],
           b as [| ? | ? | ? | ys | s2 e2 t2 | lb | ? | | ? ? |];
    cbn [as_number]; cbv beta iota;
    try discriminate; try apply Hun; try apply Hseq;
    try (intros [= <-]; split; discriminate).
  destruct (h !! la) as [[? ? | ? xs ?] |], (h !! lb) as [[? ? | ? ys ?] |];
    try apply Hun; try (intros [= <-]; split; discriminate).
  destruct (Nat.eqb la lb); [discriminate | apply Hseq].
Qed.

Lemma identity_error a b e : identity a b = Raise e -> e = Unsupported.
Proof.
  unfold identity.
  destruct a, b; try discriminate;
    try (destruct (py_is _ _); [| discriminate]); now intros [= <-].
Qed.

Lemma py_compare_quiet h op a b e :
  py_compare h op a b = Raise e -> e <> AttributeError /\ e <> NameError.
Proof.
  unfold py_compare.
  destruct op;
    try (destruct (richcmp recursion_limit h _ a b) eqn:E; [discriminate |];
         intros [= <-]; now apply (richcmp_quiet _ _ _ _ _ _ E));
    (destruct (identity a b) eqn:E; [discriminate |]);
    intros [= <-]; apply identity_error in E; subst; split; discriminate.
Qed.

(** ** Calls without arguments *)


Lemma py_call_nullary_quiet f h e :
  fst (py_call f [] h) = Raise e -> e <> AttributeError /\ e <> NameError.
Proof.
  destruct f as [| | | | | | | [] | | self name |];
    try (intros [= <-]; split; discriminate).
  unfold py_call. rewrite bind_reading.
  destruct (_ && _); [discriminate | intros [= <-]; split; discriminate].
Qed.

Section Further.

Variable parse : string -> compiled.
Variable caller : frame.

(** ** Keys of the list itself *)

Lemma dispatch_index_default cls key mro self h c items attrs :
  is_index key = true ->
  (is_trigger key = true -> Recursemixin ∉ mro) ->
  h !! self = Some (Seq c items attrs) ->
  default_marker h self mro ->
  dispatch parse caller cls key mro self h = list_getitem self key h.
Proof.
  intros Hi Htrig Hself. induction mro as [| [|] rest IH]; intros Hm; simpl.
  - reflexivity.
  - pose proof (default_marker_tail _ _ _ _ Hm) as Hm'.
    assert (Hrest : is_trigger key = true -> Recursemixin ∉ rest).
    { intros Ht Hin. apply (Htrig Ht). now right. }
    unfold querymixin_getitem. rewrite try_except_pass.
    + now apply IH.
    + intros x Hx Hin. apply list_elem_of_singleton in Hin. subst x.
      apply (dispatch_index_typed parse caller cls key rest self h c items attrs
               Hi Hself Hm'); [| exact Hx].
      intros Ht Hin. now destruct (Hrest Ht).
  - destruct (is_trigger key) eqn:E.
    + exfalso. apply (Htrig eq_refl). left.
    + rewrite recursemixin_getitem_other; [| apply Hm; left | exact E].
      apply IH; [intros Ht; discriminate | now apply default_marker_tail in Hm].
Qed.

(** The mixins do not change what the list does with its own keys: an
    integer or a slice, the whole-range marker of a class with
    [recursemixin] apart, is answered by [list.__getitem__], with its
    result, its [IndexError] or [ValueError], and its new plain list for a
    slice, on a sequence that has not rebound the marker. *)
Theorem index_keys_as_list cls self items attrs key h :
  is_index key = true ->
  (is_trigger key = true -> Recursemixin ∉ cls_mixins cls) ->
  h !! self = Some (Seq cls items attrs) ->
  own_marker cls attrs = None ->
  subscript parse caller self key h = list_getitem self key h.
Proof.
  intros Hi Htrig Hself Hown.
  rewrite (subscript_at parse caller cls self items attrs key h Hself).
  apply (dispatch_index_default cls key _ self h cls items attrs); auto.
  now apply (marker_of_class h self cls items attrs).
Qed.

(** ** Keys that are no predicate *)

(** When the key cannot be made a matcher, the error of the attempt is
    what the indexing raises, in the store as it was. *)
Lemma querymixin_getitem_no_matcher super cls bound self key x h :
  super self key h = (Raise TypeError, h) \/ super self key h = (Raise x, h) ->
  match key with
  | VTuple [] => x = IndexError
  | VTuple (k :: _) => Matcher_init parse k h = (Raise x, h)
  | _ => Matcher_init parse key h = (Raise x, h)
  end ->
  querymixin_getitem parse caller super cls bound self key h = (Raise x, h).
Proof.
  intros Hsuper Hkey.
  assert (Hhandler :
    (let trick (key0 : value) (remainder : option (list value)) : M pyobj :=
       let* matcher := Matcher_init parse key0 in
       let* its := reading (fun h0 => py_iter h0 (VRef self)) in
       let* matched := py_filter (Matcher_call caller matcher) its in
       match remainder with
       | Some ((_ :: _) as r) => let* o := alloc (Seq cls matched ∅) in bound o r
       | _ => let* o := alloc (Seq cls matched ∅) in ret (PVal (VRef o))
       end in
     match key with
     | VTuple [] => raise IndexError
     | VTuple (k :: rest) => trick k (Some rest)
     | _ => trick key None
     end) h = (Raise x, h)).
  { cbv beta zeta.
    destruct key as [| | | | [| k rest] | | | | | |];
      try (now rewrite (bind_raise _ _ _ _ _ Hkey)).
    now subst x. }
  unfold querymixin_getitem.
  destruct Hsuper as [Hsuper | Hsuper];
    erewrite try_except_raise by exact Hsuper.
  - rewrite bool_decide_eq_true_2 by left. exact Hhandler.
  - destruct (bool_decide (x ∈ [TypeError])); [exact Hhandler | reflexivity].
Qed.

Lemma dispatch_no_matcher cls key mro self items attrs x h :
  Querymixin ∈ mro ->
  is_index key = false ->
  h !! self = Some (Seq cls items attrs) ->
  default_marker h self mro ->
  match key with
  | VTuple [] => x = IndexError
  | VTuple (k :: _) => Matcher_init parse k h = (Raise x, h)
  | _ => Matcher_init parse key h = (Raise x, h)
  end ->
  dispatch parse caller cls key mro self h = (Raise x, h).
Proof.
  intros Hin Hi Hself Hm Hkey. induction mro as [| [|] rest IH].
  - now apply elem_of_nil in Hin.
  - pose proof (default_marker_tail _ _ _ _ Hm) as Hm'.
    simpl. apply querymixin_getitem_no_matcher; [| exact Hkey].
    destruct (decide (Querymixin ∈ rest)) as [Hrest | Hrest].
    + right. now apply IH.
    + left. now apply (dispatch_not_query parse caller cls key rest self h cls items attrs).
  - apply elem_of_cons in Hin as [Hq | Hin]; [discriminate |].
    simpl. rewrite recursemixin_getitem_other;
      [| apply Hm; left | now apply not_index_not_trigger].
    apply IH; [assumption | now apply default_marker_tail in Hm].
Qed.

(** A predicate that is no expression, alone or at the head of a tuple
    key, raises [SyntaxError] before any element is looked at: the store
    is as it was, whatever the sequence holds. *)
Theorem syntax_error_is_raised cls self items attrs p remainder key h :
  Querymixin ∈ cls_mixins cls ->
  h !! self = Some (Seq cls items attrs) ->
  own_marker cls attrs = None ->
  key = VStr p \/ key = VTuple (VStr p :: remainder) ->
  parse p = Malformed ->
  subscript parse caller self key h = (Raise SyntaxError, h).
Proof.
  intros Hin Hself Hown Hkey Hparse.
  rewrite (subscript_at parse caller cls self items attrs key h Hself).
  pose proof (marker_of_class h self cls items attrs Hself Hown) as Hm.
  assert (Hinit : Matcher_init parse (VStr p) h = (Raise SyntaxError, h)).
  { unfold Matcher_init, py_compile. now rewrite Hparse. }
  apply (dispatch_no_matcher cls key _ self items attrs); auto;
    destruct Hkey as [-> | ->]; auto.
Qed.

(** A key that is neither an index nor a string nor a tuple, or a tuple
    whose head is not a string, raises the [TypeError] of [compile]:
    [seq[None]] and [seq[0, 1]] are errors, not queries. *)
Theorem non_string_predicate_is_a_type_error cls self items attrs key k h :
  Querymixin ∈ cls_mixins cls ->
  h !! self = Some (Seq cls items attrs) ->
  own_marker cls attrs = None ->
  is_index key = false ->
  (exists remainder, key = VTuple (k :: remainder)) \/
  (key = k /\ match key with VTuple _ => False | _ => True end) ->
  isinstance_str k = false ->
  subscript parse caller self key h = (Raise TypeError, h).
Proof.
  intros Hin Hself Hown Hi Hkey Hk.
  rewrite (subscript_at parse caller cls self items attrs key h Hself).
  pose proof (marker_of_class h self cls items attrs Hself Hown) as Hm.
  assert (Hinit : Matcher_init parse k h = (Raise TypeError, h)).
  { unfold Matcher_init, py_compile. destruct k; try discriminate; reflexivity. }
  apply (dispatch_no_matcher cls key _ self items attrs); auto.
  destruct Hkey as [[remainder ->] | [-> Hnt]]; [exact Hinit |].
  destruct k as [| | | | vs | | | | | |]; try exact Hinit. contradiction.
Qed.

(** The empty tuple is a key without a head: [seq[()]] raises the
    [IndexError] of [key[0]]. *)
Theorem empty_tuple_key_is_an_index_error cls self items attrs h :
  Querymixin ∈ cls_mixins cls ->
  h !! self = Some (Seq cls items attrs) ->
  own_marker cls attrs = None ->
  subscript parse caller self (VTuple []) h = (Raise IndexError, h).
Proof.
  intros Hin Hself Hown.
  rewrite (subscript_at parse caller cls self items attrs _ h Hself).
  apply (dispatch_no_matcher cls (VTuple []) _ self items attrs); auto.
  now apply (marker_of_class h self cls items attrs).
Qed.

(** ** What a filter returns *)

Lemma select_sublist items keeps : select items keeps `sublist_of` items.
Proof.
  induction items as [| x items IH] in keeps |- *; simpl.
  - constructor.
  - destruct keeps as [| [|] keeps].
    + apply sublist_nil_l.
    + now apply sublist_skip.
    + now apply sublist_cons.
Qed.

(** A filter invents nothing and reorders nothing: the items of [seq[p]]
    are items of [seq], in the order of [seq], and there are no more of
    them. *)
Theorem filter_is_sublist cls self items attrs p code keeps h h' :
  Querymixin ∈ cls_mixins cls ->
  h !! self = Some (Seq cls items attrs) ->
  own_marker cls attrs = None ->
  parse p = Code code ->
  verdicts (Matcher_call caller {| expr := code |}) items h = (Ok keeps, h') ->
  exists matched,
    subscript parse caller self (VStr p) h
    = (Ok (PVal (VRef (length h'))), h' ++ [Seq cls matched ∅])
    /\ matched `sublist_of` items
    /\ (length matched <= length items)%nat.
Proof.
  intros Hin Hself Hown Hparse Hverdicts. exists (select items keeps). split; [| split].
  - now apply (subscript_string_key parse caller cls self items attrs p code).
  - apply select_sublist.
  - apply sublist_length, select_sublist.
Qed.

(** ** Induction on keys *)

Lemma value_ind_nested (P : value -> Prop) :
  P VNone -> (forall b, P (VBool b)) -> (forall z, P (VInt z)) ->
  (forall s, P (VStr s)) ->
  (forall vs, Forall P vs -> P (VTuple vs)) ->
  (forall start stop step, P (VSlice start stop step)) ->
  (forall l, P (VRef l)) -> (forall f, P (VBuiltin f)) -> P VBuiltinsDict ->
  (forall self name, P (VMethod self name)) -> P VRecurseproxy ->
  forall v, P v.
Proof.
  intros HNone HBool HInt HStr HTuple HSlice HRef HBuiltin HDict HMethod HProxy.
  fix IH 1. intros [| b | z | s | vs | start stop step | l | f | | self name |].
  - exact HNone.
  - apply HBool.
  - apply HInt.
  - apply HStr.
  - apply HTuple. induction vs as [| v vs IHvs]; constructor; [apply IH | exact IHvs].
  - apply HSlice.
  - apply HRef.
  - apply HBuiltin.
  - exact HDict.
  - apply HMethod.
  - exact HProxy.
Qed.

(** ** Errors a query does not raise *)

Lemma quiet_ret {A} (a : A) : quiet (ret a).
Proof. intros h e. discriminate. Qed.

Lemma quiet_raise {A} e : e <> AttributeError -> e <> NameError -> quiet (@raise A e).
Proof. intros Ha Hn h e' [= <-]. now split. Qed.

Lemma quiet_alloc o : quiet (alloc o).
Proof. intros h e. discriminate. Qed.

Lemma quiet_at_bind {A B} (m : M A) (k : A -> M B) h :
  quiet_at m h ->
  (forall a h', m h = (Ok a, h') -> quiet_at (k a) h') ->
  quiet_at (bind m k) h.
Proof.
  intros Hm Hk e. unfold bind. unfold quiet_at in Hm.
  destruct (m h) as [[a | e'] h1]; [now apply Hk |].
  intros [= <-]. now apply Hm.
Qed.

Lemma quiet_bind {A B} (m : M A) (k : A -> M B) :
  quiet m -> (forall a, quiet (k a)) -> quiet (bind m k).
Proof.
  intros Hm Hk h. apply quiet_at_bind; [apply Hm |]. intros a h' _. apply Hk.
Qed.

Lemma quiet_reading {A} (f : heap -> result A) :
  (forall h e, f h = Raise e -> e <> AttributeError /\ e <> NameError) ->
  quiet (reading f).
Proof. intros Hf h e. apply Hf. Qed.

Lemma quiet_at_try_except {A} (m : M A) caught handler h :
  (quiet_at m h \/ (AttributeError ∈ caught /\ NameError ∈ caught)) ->
  quiet handler -> quiet_at (try_except m caught handler) h.
Proof.
  intros Hm Hh e. unfold try_except.
  destruct (m h) as [[a | e'] h1] eqn:E; [discriminate |].
  destruct (bool_decide (e' ∈ caught)) eqn:Eb; [apply Hh |].
  apply bool_decide_eq_false in Eb. intros [= <-].
  destruct Hm as [Hm | [Ha Hn]].
  - apply Hm. now rewrite E.
  - split; intros ->; contradiction.
Qed.

Lemma quiet_iter v : quiet (reading (fun h => py_iter h v)).
Proof.
  apply quiet_reading. intros h e E.
  destruct (py_iter_error h v _ E) as [-> | ->]; split; discriminate.
Qed.

Lemma quiet_Matcher_call m element : quiet (Matcher_call caller m element).
Proof.
  intros h. apply quiet_at_try_except; [right; split | apply quiet_ret].
  - left.
  - right. left.
Qed.

Lemma quiet_filter function items :
  (forall x, quiet (function x)) -> quiet (py_filter function items).
Proof.
  intros Hf. induction items as [| x rest IH]; [apply quiet_ret |].
  simpl. apply quiet_bind; [apply Hf |]. intros r.
  apply quiet_bind; [apply quiet_reading; intros h e; discriminate |].
  intros keep. apply quiet_bind; [exact IH |]. intros matched. apply quiet_ret.
Qed.

Lemma quiet_Matcher_init source : quiet (Matcher_init parse source).
Proof.
  apply quiet_bind; [| intros code; apply quiet_ret].
  unfold py_compile. destruct source; try (apply quiet_raise; discriminate).
  destruct (parse s); [apply quiet_ret | |]; apply quiet_raise; discriminate.
Qed.

Lemma quiet_list_getitem self key : quiet (list_getitem self key).
Proof.
  apply quiet_bind; [apply quiet_iter |]. intros items.
  destruct key; try (apply quiet_raise; discriminate).
  - apply quiet_bind; [| intros v; apply quiet_ret].
    apply quiet_reading. intros _ e E.
    apply index_item_error in E. subst. split; discriminate.
  - apply quiet_bind; [| intros v; apply quiet_ret].
    apply quiet_reading. intros _ e E.
    apply index_item_error in E. subst. split; discriminate.
  - apply quiet_bind.
    + apply quiet_reading. intros _ e E.
      apply slice_indices_error in E. subst. split; discriminate.
    + intros positions. apply quiet_bind; [apply quiet_alloc |].
      intros l. apply quiet_ret.
Qed.

Lemma quiet_at_querymixin_getitem super cls bound self key h :
  quiet_at (super self key) h ->
  (forall k matched (h' : heap), In k (remainder_of key) ->
     quiet_at (bound (length h') [k]) (h' ++ [Seq cls matched ∅])) ->
  (forall o args, length args <> 1%nat -> quiet (bound o args)) ->
  quiet_at (querymixin_getitem parse caller super cls bound self key) h.
Proof.
  intros Hsuper Hone Hmany.
  apply quiet_at_try_except; [now left |]. cbv beta zeta.
  assert (Htrick : forall k remainder,
    (forall x matched (h' : heap), In x (default [] remainder) ->
       quiet_at (bound (length h') [x]) (h' ++ [Seq cls matched ∅])) ->
    quiet (let* matcher := Matcher_init parse k in
           let* its := reading (fun h0 => py_iter h0 (VRef self)) in
           let* matched := py_filter (Matcher_call caller matcher) its in
           match remainder with
           | Some ((_ :: _) as r) => let* o := alloc (Seq cls matched ∅) in bound o r
           | _ => let* o := alloc (Seq cls matched ∅) in ret (PVal (VRef o))
           end)).
  { intros k remainder Hrem.
    apply quiet_bind; [apply quiet_Matcher_init |]. intros matcher.
    apply quiet_bind; [apply quiet_iter |]. intros its.
    apply quiet_bind; [apply quiet_filter; intros x; apply quiet_Matcher_call |].
    intros matched h0.
    destruct remainder as [[| k1 [| k2 r]] |];
      try (apply quiet_bind; [apply quiet_alloc | intros o; apply quiet_ret]).
    - intros e. rewrite bind_alloc. apply Hrem. now left.
    - apply quiet_bind; [apply quiet_alloc |]. intros o. apply Hmany. discriminate. }
  destruct key as [| | | | [| k rest] | | | | | |];
    try (apply (Htrick _ None); intros x matched h' []).
  - apply quiet_raise; discriminate.
  - apply (Htrick k (Some rest)). intros x matched h' Hx. now apply Hone.
Qed.

Lemma quiet_at_recursemixin_getitem super self key cls items attrs h :
  h !! self = Some (Seq cls items attrs) ->
  Recursemixin ∈ cls_mixins cls ->
  quiet_at (super self key) h ->
  quiet_at (recursemixin_getitem super self key) h.
Proof.
  intros Hself Hin Hsuper e. unfold recursemixin_getitem.
  rewrite bind_reading.
  rewrite (getattr_of_sequence h self cls items attrs) by (assumption || reflexivity).
  assert (Hfound : forall name a,
    class_attr cls (VRef self) name = Some a ->
    exists b, match attrs !! name, class_attr cls (VRef self) name with
              | Some a, _ => Ok a
              | None, Some a => Ok a
              | None, None => Raise AttributeError
              end = Ok b).
  { intros name a ->. destruct (attrs !! name); eauto. }
  destruct (Hfound "_recursemixin_trigger" recursemixin_trigger) as [trigger ->].
  { unfold class_attr. now rewrite bool_decide_eq_true_2. }
  rewrite bind_reading.
  destruct (py_compare h OpEq key trigger) as [same | x] eqn:Ec.
  2:{ intros [= <-]. now apply (py_compare_quiet _ _ _ _ _ Ec). }
  rewrite bind_reading.
  destruct (py_truthy h same); [| apply Hsuper].
  rewrite bind_reading.
  rewrite (getattr_of_sequence h self cls items attrs) by (assumption || reflexivity).
  destruct (Hfound "proxy_class" (VMethod (VRef self) "proxy_class")) as [method ->].
  { unfold class_attr. now rewrite bool_decide_eq_true_2. }
  unfold bind at 1.
  destruct (py_call method [] h) as [[c | x] h1] eqn:Ecall.
  - apply py_call_nullary in Ecall as [-> ->]. discriminate.
  - intros [= <-]. apply (py_call_nullary_quiet method h). now rewrite Ecall.
Qed.

Lemma quiet_at_dispatch cls key mro self items attrs h :
  h !! self = Some (Seq cls items attrs) ->
  (Recursemixin ∈ mro -> Recursemixin ∈ cls_mixins cls) ->
  (forall k matched (h' : heap), In k (remainder_of key) ->
     quiet_at (getitem parse caller cls k (length h')) (h' ++ [Seq cls matched ∅])) ->
  quiet_at (dispatch parse caller cls key mro self) h.
Proof.
  intros Hself Hsub Hrest. induction mro as [| [|] rest IH]; simpl.
  - apply quiet_list_getitem.
  - apply quiet_at_querymixin_getitem.
    + apply IH. intros Hin. apply Hsub. now right.
    + intros k matched h' Hk. simpl. now apply Hrest.
    + intros o [| k [| k' args]] Hlen; try (apply quiet_raise; discriminate).
      now contradiction Hlen.
  - apply (quiet_at_recursemixin_getitem _ self key cls items attrs); auto.
    + apply Hsub. left.
    + apply IH. intros Hin. apply Hsub. now right.
Qed.

Lemma quiet_at_getitem cls key : forall self items attrs h,
  h !! self = Some (Seq cls items attrs) ->
  quiet_at (getitem parse caller cls key self) h.
Proof.
  induction key as [| | | | vs IH | | | | | |] using value_ind_nested;
    intros self items attrs h Hself; rewrite getitem_dispatch;
    apply (quiet_at_dispatch cls _ _ self items attrs h Hself); auto;
    try (intros k matched h' []).
  destruct vs as [| k0 rest]; [intros k matched h' [] |].
  intros k matched h' Hk. apply Forall_cons in IH as [_ IH].
  rewrite Forall_forall in IH.
  apply (IH k (proj2 (list_elem_of_In _ _) Hk) (length h') matched ∅).
  apply lookup_alloc.
Qed.

(** Indexing raises neither [AttributeError] nor [NameError]: for every
    object, every key, every predicate (calls included) and every store,
    an attribute that is missing or a name that is unknown never
    interrupts a query.  The errors of the predicates are caught by the
    matcher, the hooks of [recursemixin] are found on the class when the
    sequence has none of its own, and the calls that the model runs in
    their place raise neither. *)
Theorem getitem_never_raises_attribute_error key self h :
  fst (subscript parse caller self key h) <> Raise AttributeError
  /\ fst (subscript parse caller self key h) <> Raise NameError.
Proof.
  assert (Hq : quiet_at (subscript parse caller self key) h).
  { unfold subscript. apply quiet_at_bind.
    - intros e. unfold reading, py_type.
      destruct (h !! self) as [[? ? | ? ? ?] |]; try discriminate;
        intros [= <-]; split; discriminate.
    - intros cls h'. unfold reading, py_type.
      destruct (h !! self) as [[? ? | c items attrs] |] eqn:Hself; try discriminate.
      intros [= <- <-]. now apply (quiet_at_getitem c key self items attrs). }
  split; intros E; destruct (Hq _ E) as [Ha Hn]; congruence.
Qed.

(** ** A predicate and any key *)

Lemma dispatch_string_needs_query cls p mro self h r h1 :
  Querymixin ∉ mro ->
  default_marker h self mro ->
  dispatch parse caller cls (VStr p) mro self h <> (Ok r, h1).
Proof.
  intros Hnq. induction mro as [| [|] rest IH]; intros Hm; simpl.
  - unfold list_getitem. rewrite bind_reading.
    destruct (py_iter h (VRef self)); discriminate.
  - exfalso. apply Hnq. left.
  - rewrite recursemixin_getitem_other; [| apply Hm; left | reflexivity].
    apply IH; [| now apply default_marker_tail in Hm].
    intros Hin. apply Hnq. now right.
Qed.

Lemma dispatch_pair_any cls p k mro self h :
  NoDup mro ->
  default_marker h self mro ->
  dispatch parse caller cls (VTuple [VStr p; k]) mro self h
  = (let* r := dispatch parse caller cls (VStr p) mro self in
     index_result parse caller r k) h.
Proof.
  intros Hnd. induction mro as [| [|] rest IH] in h, Hnd |- *; intros Hm; simpl.
  - unfold list_getitem, bind, reading.
    destruct (py_iter h (VRef self)); reflexivity.
  - pose proof (default_marker_tail _ _ _ _ Hm) as Hm'.
    apply NoDup_cons in Hnd as [Hnq Hnd]. unfold querymixin_getitem.
    destruct (dispatch parse caller cls (VStr p) rest self h) as [[r | x] h1] eqn:E.
    { exfalso. now apply (dispatch_string_needs_query cls p rest self h r h1). }
    assert (Hnext : dispatch parse caller cls (VTuple [VStr p; k]) rest self h
                    = (Raise x, h1)).
    { rewrite (IH h Hnd Hm'). now rewrite (bind_raise _ _ _ _ _ E). }
    erewrite try_except_raise; [| exact Hnext].
    erewrite bind_try_raise; [| exact E].
    destruct (bool_decide (x ∈ [TypeError])); [| reflexivity].
    rewrite bind_assoc.
    destruct (Matcher_init parse (VStr p) h1) as [[m | y] h2] eqn:Em.
    + rewrite !(bind_ok _ _ _ _ _ Em), bind_assoc, !bind_reading.
      destruct (py_iter h2 (VRef self)) as [its | y]; [| reflexivity].
      rewrite bind_assoc.
      destruct (py_filter (Matcher_call caller m) its h2) as [[matched | y] h3] eqn:Ef.
      * rewrite !(bind_ok _ _ _ _ _ Ef), bind_assoc, !bind_alloc, bind_ret.
        simpl. symmetry.
        rewrite (subscript_at parse caller cls (length h3) matched ∅ k _
                   (lookup_alloc _ _)).
        now rewrite getitem_dispatch.
      * now rewrite !(bind_raise _ _ _ _ _ Ef).
    + now rewrite !(bind_raise _ _ _ _ _ Em).
  - apply NoDup_cons in Hnd as [_ Hnd].
    rewrite recursemixin_getitem_other; [| apply Hm; left | reflexivity].
    rewrite IH by (assumption || now apply default_marker_tail in Hm).
    unfold bind.
    rewrite recursemixin_getitem_other; [reflexivity | apply Hm; left | reflexivity].
Qed.

(** The second component of a pair is any key of the filtered sequence,
    not only an index: [seq[p, k]] is [seq[p][k]] for a second predicate
    [k] and for a nested pair [k] as well, which is how queries chain.
    (When the class inherits from [recursemixin] as well, the sequence is
    one that has not rebound the whole-range marker.) *)
Theorem pair_key_is_two_steps cls self items attrs p k h :
  NoDup (cls_mixins cls) ->
  h !! self = Some (Seq cls items attrs) ->
  own_marker cls attrs = None ->
  getitem parse caller cls (VTuple [VStr p; k]) self h
  = (let* r := getitem parse caller cls (VStr p) self in
     index_result parse caller r k) h.
Proof.
  intros Hnd Hself Hown.
  pose proof (marker_of_class h self cls items attrs Hself Hown) as Hm.
  rewrite getitem_dispatch, (dispatch_pair_any cls p k _ self h Hnd Hm).
  unfold bind. now rewrite getitem_dispatch.
Qed.

(** ** Objects a query does not touch *)
















End Further.

(** ** Chains of projections *)


















(** ** Two predicates *)









Section TwoPredicates.

Variable parse : string -> compiled.
Variable caller : frame.







End TwoPredicates.

(** ** The further properties on the objects of the docstrings *)

(** [m[-1]] is what the list answers. *)
Lemma index_keys_as_list_witness :
  subscript sample_parse module_frame 3%nat (VInt (-1)) m_heap
  = list_getitem 3%nat (VInt (-1)) m_heap.
Proof.
  apply (index_keys_as_list sample_parse module_frame MList 3%nat
           [VRef 0; VRef 1; VRef 2] ∅ (VInt (-1)) m_heap).
  - reflexivity.
  - discriminate.
  - reflexivity.
  - reflexivity.
Defined.

(** [m['it.name==']] raises [SyntaxError]. *)
Lemma syntax_error_is_raised_witness :
  subscript sample_parse module_frame 3%nat (VStr "it.name==") m_heap
  = (Raise SyntaxError, m_heap).
Proof.
  apply (syntax_error_is_raised sample_parse module_frame MList 3%nat
           [VRef 0; VRef 1; VRef 2] ∅ "it.name==" [] (VStr "it.name==") m_heap).
  - left.
  - reflexivity.
  - reflexivity.
  - left. reflexivity.
  - reflexivity.
Defined.

(** [m[0, 1]] raises [TypeError]. *)
Lemma non_string_predicate_is_a_type_error_witness :
  subscript sample_parse module_frame 3%nat (VTuple [VInt 0; VInt 1]) m_heap
  = (Raise TypeError, m_heap).
Proof.
  apply (non_string_predicate_is_a_type_error sample_parse module_frame MList 3%nat
           [VRef 0; VRef 1; VRef 2] ∅ (VTuple [VInt 0; VInt 1]) (VInt 0) m_heap).
  - left.
  - reflexivity.
  - reflexivity.
  - reflexivity.
  - left. exists [VInt 1]. reflexivity.
  - reflexivity.
Defined.

(** [m[()]] raises [IndexError]. *)
Lemma empty_tuple_key_is_an_index_error_witness :
  subscript sample_parse module_frame 3%nat (VTuple []) m_heap
  = (Raise IndexError, m_heap).
Proof.
  apply (empty_tuple_key_is_an_index_error sample_parse module_frame MList 3%nat
           [VRef 0; VRef 1; VRef 2] ∅ m_heap).
  - left.
  - reflexivity.
  - reflexivity.
Defined.

Lemma filter_is_sublist_witness :
  exists matched,
    subscript sample_parse module_frame 3%nat (VStr "it.name=='two'") m_heap
    = (Ok (PVal (VRef 4)), m_heap ++ [Seq MList matched ∅])
    /\ matched `sublist_of` [VRef 0; VRef 1; VRef 2]
    /\ (length matched <= 3)%nat.
Proof.
  apply (filter_is_sublist sample_parse module_frame MList 3%nat
           [VRef 0; VRef 1; VRef 2] ∅ "it.name=='two'" (it_attr_eq "name" "two")
           [false; true; false] m_heap m_heap).
  - left.
  - reflexivity.
  - reflexivity.
  - reflexivity.
  - vm_compute. reflexivity.
Defined.

(** [m['it.name=="two"', ('it.name=="two"', 0)]] takes the two steps. *)
Lemma pair_key_is_two_steps_witness :
  let k := VTuple [VStr "it.name=='two'"; VInt 0] in
  getitem sample_parse module_frame MList (VTuple [VStr "it.name=='two'"; k]) 3%nat m_heap
  = (let* r := getitem sample_parse module_frame MList (VStr "it.name=='two'") 3%nat in
     index_result sample_parse module_frame r k) m_heap.
Proof.
  apply (pair_key_is_two_steps sample_parse module_frame MList 3%nat
           [VRef 0; VRef 1; VRef 2] ∅ "it.name=='two'"
           (VTuple [VStr "it.name=='two'"; VInt 0]) m_heap).
  - apply NoDup_singleton.
  - reflexivity.
  - reflexivity.
Defined.






